(** * little_app: menu store, filter coordinator and profile helpers

    A shallow embedding of the pure and state-passing logic found in
    [src/screens/HomeScreen.js] (the [DatabaseOperations] object, the
    [HomeScreen] component and the [Profile] component), together with
    the properties the specification states about them.

    Conventions.
    - A JavaScript string is a [string]; each [ascii] stands for one code
      point below 256.  On such text the UTF-16 view of JavaScript and the
      UTF-8 view of SQLite agree on length, on order and on what a single
      character is.
    - The SQLite engine and the host key-value store are not part of the
      repository.  The queries the code sends are given their SQL meaning:
      a scan of the table in rowid order, a [WHERE] filter, an [ORDER BY]
      sort under the BINARY collation.
    - [async] functions are sequential here; an exception is an explicit
      result value.  A read of the key-value store answers its content;
      whether the writes of [handleOnboardingComplete] and [saveChanges]
      resolve is an input of these two. *)

From Stdlib Require Import Strings.Ascii.
From Stdlib Require Strings.String.
From Stdlib Require Import QArith.QArith_base.
From stdpp Require Import base numbers list strings sorting gmap pretty.

#[local] Set Warnings "-clear-no-such-hyp".

(** ** JavaScript string primitives used by the code *)

Module JSString.

Definition chars (s : string) : list ascii := String.list_ascii_of_string s.
Definition str (l : list ascii) : string := String.string_of_list_ascii l.

(** [s.length] *)
Definition length (s : string) : nat := List.length (chars s).

(** A string is truthy exactly when it is not empty. *)
Definition truthy (s : string) : bool :=
  match s with EmptyString => false | String _ _ => true end.

(** The class [\d] of a regular expression without the unicode flag. *)
Definition is_digit (c : ascii) : bool :=
  (48 <=? nat_of_ascii c) && (nat_of_ascii c <=? 57).

(** [s.replace(/\D/g, '')]: every character outside [\d] is removed. *)
Definition replace_non_digits (s : string) : string :=
  str (List.filter is_digit (chars s)).

(** The digits of a string, in the order they occur. *)
Definition digits (s : string) : list ascii := List.filter is_digit (chars s).

(** [s.substring(start, end)]: both indices are clamped to the length
    and swapped when [start > end]. *)
Definition substring (s : string) (start end_ : nat) : string :=
  let len := length s in
  let a := start `min` len in
  let b := end_ `min` len in
  let from := a `min` b in
  let to := a `max` b in
  str (take (to - from) (drop from (chars s))).

(** [s.substring(start)]: the end defaults to the length. *)
Definition substring_from (s : string) (start : nat) : string :=
  substring s start (length s).

(** White space and line terminators of ECMAScript, below 256: TAB, LF,
    VT, FF, CR, SPACE and NO-BREAK SPACE. *)
Definition is_whitespace (c : ascii) : bool :=
  let n := nat_of_ascii c in
  ((9 <=? n) && (n <=? 13)) || (n =? 32) || (n =? 160).

Fixpoint trim_start (l : list ascii) : list ascii :=
  match l with
  | c :: l' => if is_whitespace c then trim_start l' else l
  | [] => []
  end.

Definition trim_end (l : list ascii) : list ascii :=
  reverse (trim_start (reverse l)).

(** [s.trim()] *)
Definition trim (s : string) : string :=
  str (trim_end (trim_start (chars s))).

End JSString.

(** ** The embedded database

  What [expo-sqlite] does with the statements the code sends. *)

Module SQLite.

(** A row of table [menu], as created by [initializeDatabase]:
    [id INTEGER PRIMARY KEY AUTOINCREMENT, name TEXT NOT NULL,
     price REAL NOT NULL, description TEXT, image TEXT, category TEXT].
    A nullable column is an [option]; a number is carried as it is and
    never computed with. *)
Record MenuRow := {
  id : Z;
  name : string;
  price : Q;
  description : option string;
  image : option string;
  category : option string
}.

(** The database file once the table exists: the rows in rowid order and
    the largest rowid ever handed out (table [sqlite_sequence]). *)
Record Database := {
  menu : list MenuRow;
  sequence : Z
}.

(** The persisted file: [None] until the table has been created. *)
Definition Storage := option Database.

(** The number of rows of the persisted table. *)
Definition row_count (file : Storage) : nat :=
  match file with
  | Some database => length (menu database)
  | None => 0
  end.

Definition empty : Database := {| menu := []; sequence := 0 |}.

(** [CREATE TABLE IF NOT EXISTS menu (...)] *)
Definition create_table_if_not_exists (file : Storage) : Database :=
  match file with
  | Some database => database
  | None => empty
  end.

(** The rowid AUTOINCREMENT picks: one more than the largest rowid the
    table holds or has ever held. *)
Definition next_rowid (database : Database) : Z :=
  foldr Z.max (sequence database) (id <$> menu database) + 1.

(** [INSERT INTO menu (name, price, description, image, category)
     VALUES (?, ?, ?, ?, ?)] with the five bound values; a null bound to
    a NOT NULL column makes the statement fail and leaves the table as
    it was. *)
Definition insert_menu (database : Database)
    (name_ : option string) (price_ : option Q)
    (description_ image_ category_ : option string) : option Database :=
  match name_, price_ with
  | Some n, Some p =>
      let rowid := next_rowid database in
      Some {| menu := menu database ++
                [{| id := rowid; name := n; price := p;
                    description := description_; image := image_;
                    category := category_ |}];
              sequence := rowid |}
  | _, _ => None
  end.

(** Case folding of LIKE: only the letters A-Z are folded. *)
Definition lower (c : ascii) : ascii :=
  let n := nat_of_ascii c in
  if (65 <=? n) && (n <=? 90) then ascii_of_nat (n + 32) else c.

(** [text LIKE pattern] without ESCAPE: [%] stands for any run of
    characters, [_] for any single character, anything else for itself
    up to case. *)
Fixpoint like_chars (pattern text : list ascii) : bool :=
  match pattern with
  | [] => match text with [] => true | _ :: _ => false end
  | p :: pattern' =>
      if Ascii.eqb p "%" then
        (fix any_run (t : list ascii) : bool :=
           like_chars pattern' t ||
           match t with [] => false | _ :: t' => any_run t' end) text
      else
        match text with
        | [] => false
        | c :: text' =>
            (Ascii.eqb p "_" || Ascii.eqb (lower p) (lower c))
            && like_chars pattern' text'
        end
  end.

(** The engine reads the two operands of LIKE as C strings: each ends
    at its first NUL character, when it has one. *)
Fixpoint c_string (l : list ascii) : list ascii :=
  match l with
  | [] => []
  | c :: l' => if Ascii.eqb c "000" then [] else c :: c_string l'
  end.

(** [text LIKE pattern].  A pattern of more than 50000 bytes makes the
    engine fail the query; the queries of this model stay below that. *)
Definition like (text pattern : string) : bool :=
  like_chars (c_string (JSString.chars pattern)) (c_string (JSString.chars text)).

(** [category IN (?, ..., ?)]: a NULL category is in no list. *)
Definition in_list (value : option string) (values : list string) : bool :=
  match value with
  | Some v => existsb (String.eqb v) values
  | None => false
  end.

(** The conditions the code appends to [WHERE 1=1]. *)
Inductive Condition :=
| NameLike (pattern : string)
| CategoryIn (values : list string).

Definition holds (row : MenuRow) (c : Condition) : bool :=
  match c with
  | NameLike pattern => like (name row) pattern
  | CategoryIn values => in_list (category row) values
  end.

(** [ORDER BY name] under the BINARY collation: the order of the
    character codes, a proper prefix first. *)
Definition name_le (r1 r2 : MenuRow) : Prop := String.le (name r1) (name r2).

(** A row put at its place in rows already in order: before the first
    row whose name is not smaller. *)
Fixpoint insert_by_name (row : MenuRow) (sorted : list MenuRow) : list MenuRow :=
  match sorted with
  | [] => [row]
  | r :: rest =>
      if decide (name_le row r) then row :: sorted
      else r :: insert_by_name row rest
  end.

(** The sort of the scan: rows of equal name come out in the order of
    the scan, which is the order of their rowids. *)
Definition order_by_name (rows : list MenuRow) : list MenuRow :=
  foldr insert_by_name [] rows.

(** [SELECT * FROM menu WHERE 1=1 AND c1 AND ... AND cn ORDER BY name];
    without conditions this is [SELECT * FROM menu ORDER BY name]. *)
Definition select_menu (database : Database) (where_ : list Condition)
    : list MenuRow :=
  order_by_name
    (List.filter (fun row => forallb (holds row) where_) (menu database)).

(** NULL sorts before every text. *)
Definition category_le (c1 c2 : option string) : Prop :=
  match c1, c2 with
  | None, _ => True
  | Some _, None => False
  | Some s1, Some s2 => String.le s1 s2
  end.

Global Instance category_le_dec : RelDecision category_le.
Proof. intros [s1|] [s2|]; simpl; apply _. Defined.

(** [SELECT DISTINCT category FROM menu ORDER BY category] *)
Definition select_distinct_category (database : Database)
    : list (option string) :=
  merge_sort category_le (remove_dups (category <$> menu database)).

End SQLite.

(** ** The [DatabaseOperations] object *)

Module DatabaseOperations.
Import SQLite.

(** An element of the [menu] array of the remote document.  A field is
    [None] when the element leaves it out. *)
Record MenuItem := {
  item_name : option string;
  item_price : option Q;
  item_description : option string;
  item_image : option string;
  item_category : option string
}.

(** How a call to [saveMenuItems] ends. *)
Inductive Completion := Resolved | Rejected.

(** [value || fallback] on an optional string: absent and empty are
    both falsy. *)
Definition or_default (value : option string) (fallback : string) : string :=
  match value with
  | Some v => if JSString.truthy v then v else fallback
  | None => fallback
  end.

Definition initializeDatabase (file : Storage) : Database :=
  create_table_if_not_exists file.

Definition getAllMenuItems (database : Database) : list MenuRow :=
  select_menu database [].

Fixpoint saveMenuItems (database : Database) (menuItems : list MenuItem)
    : Database * Completion :=
  match menuItems with
  | [] => (database, Resolved)
  | item :: rest =>
      match insert_menu database
              (item_name item) (item_price item) (item_description item)
              (item_image item)
              (Some (or_default (item_category item) "Main")) with
      | Some database' => saveMenuItems database' rest
      | None => (database, Rejected)
      end
  end.

Definition filterByCategories (database : Database)
    (categories : list string) : list MenuRow :=
  if List.length categories =? 0 then getAllMenuItems database
  else select_menu database [CategoryIn categories].

Definition filterBySearchAndCategories (database : Database)
    (searchText : string) (categories : list string) : list MenuRow :=
  let params1 :=
    if JSString.truthy searchText && JSString.truthy (JSString.trim searchText)
    then [NameLike ("%" +:+ JSString.trim searchText +:+ "%")]
    else [] in
  let params2 :=
    if 0 <? List.length categories then [CategoryIn categories] else [] in
  select_menu database (params1 ++ params2).

Definition getCategories (database : Database) : list (option string) :=
  select_distinct_category database.

End DatabaseOperations.

(** ** Profile screen: phone number helpers *)

Module Profile.
Import JSString.

Definition formatPhoneNumber (value : string) : string :=
  (* Remove all non-numeric characters *)
  let numbers := replace_non_digits value in
  (* Limit to 10 digits *)
  let truncated := substring numbers 0 10 in
  (* Format as (XXX) XXX-XXXX *)
  if 6 <=? length truncated then
    "(" +:+ substring truncated 0 3 +:+ ") " +:+ substring truncated 3 6
        +:+ "-" +:+ substring_from truncated 6
  else if 3 <=? length truncated then
    "(" +:+ substring truncated 0 3 +:+ ") " +:+ substring_from truncated 3
  else if 0 <? length truncated then
    "(" +:+ truncated
  else truncated.

Definition isValidPhoneNumber (phone : string) : bool :=
  let numbers := replace_non_digits phone in
  length numbers =? 10.

End Profile.


(** ** JSON values, as [JSON.parse] returns them *)

Module JSON.

#[local] Unset Elimination Schemes.
Inductive Value :=
| Null
| Bool (b : bool)
| Number (q : Q)
| Str (s : string)
| Array (items : list Value)
| Object (members : list (string * Value)).
#[local] Set Elimination Schemes.

(** The own enumerable properties that an object spread [{...v}]
    copies: the members of an object (of two members with one key the
    later one is kept), the indexed elements of an array or of a string,
    nothing for null, booleans and numbers. *)
Definition spread (v : Value) : gmap string Value :=
  match v with
  | Object members => list_to_map (reverse members)
  | Array items => list_to_map (imap (fun i x => (pretty i, x)) items)
  | Str s =>
      list_to_map
        (imap (fun i c => (pretty i, Str (String c EmptyString)))
              (JSString.chars s))
  | Null | Bool _ | Number _ => ∅
  end.

End JSON.

(** ** The [HomeScreen] component *)

Module HomeScreen.
Import SQLite.

(** The outcome of [fetch] followed by [response.json()]: an exception,
    or a document whose [menu] member is an array ([Some]) or is
    anything else ([None]). *)
Inductive Fetched :=
| FetchFailed
| Document (menu_ : option (list DatabaseOperations.MenuItem)).

(** The [useState] cells of the component.  [db] records whether the
    handle has been set; the database itself is threaded through the
    functions. *)
Record State := {
  userData : option (gmap string JSON.Value);
  menuItems : list MenuRow;
  filteredMenuItems : list MenuRow;
  categories : list (option string);
  selectedCategories : list string;
  debouncedSearchText : string;
  loading : bool;
  db : bool;
  alerts : list string
}.

Definition initial : State :=
  {| userData := None; menuItems := []; filteredMenuItems := [];
     categories := []; selectedCategories := []; debouncedSearchText := "";
     loading := true; db := false; alerts := [] |}.

Definition setUserData (v : gmap string JSON.Value) (st : State) : State :=
  {| userData := Some v; menuItems := menuItems st;
     filteredMenuItems := filteredMenuItems st; categories := categories st;
     selectedCategories := selectedCategories st;
     debouncedSearchText := debouncedSearchText st; loading := loading st;
     db := db st; alerts := alerts st |}.

Definition setMenuItems (v : list MenuRow) (st : State) : State :=
  {| userData := userData st; menuItems := v;
     filteredMenuItems := filteredMenuItems st; categories := categories st;
     selectedCategories := selectedCategories st;
     debouncedSearchText := debouncedSearchText st; loading := loading st;
     db := db st; alerts := alerts st |}.

Definition setFilteredMenuItems (v : list MenuRow) (st : State) : State :=
  {| userData := userData st; menuItems := menuItems st;
     filteredMenuItems := v; categories := categories st;
     selectedCategories := selectedCategories st;
     debouncedSearchText := debouncedSearchText st; loading := loading st;
     db := db st; alerts := alerts st |}.

Definition setCategories (v : list (option string)) (st : State) : State :=
  {| userData := userData st; menuItems := menuItems st;
     filteredMenuItems := filteredMenuItems st; categories := v;
     selectedCategories := selectedCategories st;
     debouncedSearchText := debouncedSearchText st; loading := loading st;
     db := db st; alerts := alerts st |}.


Definition setLoading (v : bool) (st : State) : State :=
  {| userData := userData st; menuItems := menuItems st;
     filteredMenuItems := filteredMenuItems st; categories := categories st;
     selectedCategories := selectedCategories st;
     debouncedSearchText := debouncedSearchText st; loading := v;
     db := db st; alerts := alerts st |}.

Definition setDb (st : State) : State :=
  {| userData := userData st; menuItems := menuItems st;
     filteredMenuItems := filteredMenuItems st; categories := categories st;
     selectedCategories := selectedCategories st;
     debouncedSearchText := debouncedSearchText st; loading := loading st;
     db := true; alerts := alerts st |}.

(** [Alert.alert('Error', message)] *)
Definition alert (message : string) (st : State) : State :=
  {| userData := userData st; menuItems := menuItems st;
     filteredMenuItems := filteredMenuItems st; categories := categories st;
     selectedCategories := selectedCategories st;
     debouncedSearchText := debouncedSearchText st; loading := loading st;
     db := db st; alerts := alerts st ++ [message] |}.

Definition fetch_error_message : string :=
  "Failed to load menu data. Please check your internet connection.".

Definition fetchAndStoreMenuData (remote : Fetched) (database : Database)
    (st : State) : Database * State :=
  match remote with
  | FetchFailed => (database, alert fetch_error_message st)
  | Document None => (database, st)
  | Document (Some menu_) =>
      match DatabaseOperations.saveMenuItems database menu_ with
      | (database', DatabaseOperations.Resolved) =>
          let storedItems := DatabaseOperations.getAllMenuItems database' in
          (database', setFilteredMenuItems storedItems (setMenuItems storedItems st))
      | (database', DatabaseOperations.Rejected) =>
          (database', alert fetch_error_message st)
      end
  end.

Definition loadMenuData (remote : Fetched) (database : Database)
    (st : State) : Database * State :=
  let result := DatabaseOperations.getAllMenuItems database in
  let '(database', st') :=
    if 0 <? length result then
      (database, setFilteredMenuItems result (setMenuItems result st))
    else fetchAndStoreMenuData remote database st in
  (database', setLoading false st').

Definition loadCategories (database : Database) (st : State) : State :=
  let categoryList := DatabaseOperations.getCategories database in
  setCategories categoryList st.

(** The component's own [initializeDatabase]: open, ensure the table,
    populate when empty, read the categories. *)
Definition initializeDatabase (remote : Fetched) (file : Storage)
    (st : State) : Storage * State :=
  let database := DatabaseOperations.initializeDatabase file in
  let st := setDb st in
  let '(database', st') := loadMenuData remote database st in
  (Some database', loadCategories database' st').

Definition handleFilter (database : Database) (st : State) : State :=
  if negb (db st) then st
  else
    let filtered :=
      DatabaseOperations.filterBySearchAndCategories
        database (debouncedSearchText st) (selectedCategories st) in
    setFilteredMenuItems filtered st.




Section user_data.
(** [JSON.parse]; [None] stands for a SyntaxError. *)
Variable JSON_parse : string -> option JSON.Value.

(** [AsyncStorage.getItem] answers null for a missing key; null and
    the empty string are both falsy. *)
Definition present (item : option string) : option string :=
  match item with
  | Some s => if JSString.truthy s then Some s else None
  | None => None
  end.

Definition loadUserData (asyncStorage : gmap string string) (st : State)
    : State :=
  let storedUserData := asyncStorage !! "userData" in
  let profileSettings := asyncStorage !! "profileSettings" in
  match present storedUserData with
  | Some s =>
      match JSON_parse s with
      | None => st
      | Some parsedUserData =>
          let combinedData := JSON.spread parsedUserData in
          match present profileSettings with
          | Some p =>
              match JSON_parse p with
              | None => st
              | Some parsedSettings =>
                  (* { ...combinedData, ...parsedSettings } *)
                  setUserData (JSON.spread parsedSettings ∪ combinedData) st
              end
          | None => setUserData combinedData st
          end
      end
  | None => st
  end.
End user_data.

End HomeScreen.

(** ** Sample data of the specification's scenarios *)

Module Samples.
Import SQLite DatabaseOperations.

(** The only element of the remote document of Scenario 1; it has no
    [category] member. *)
Definition greekSalad : MenuItem :=
  {| item_name := Some "Greek Salad"; item_price := Some (1299 # 100)%Q;
     item_description := Some ""; item_image := Some "greekSalad.jpg";
     item_category := None |}.

(** An element whose [category] member is the empty string. *)
Definition untagged : MenuItem :=
  {| item_name := Some "Lemon Cake"; item_price := Some (5 # 1)%Q;
     item_description := Some ""; item_image := Some "lemonCake.jpg";
     item_category := Some "" |}.

Definition lemonDessert : MenuItem :=
  {| item_name := Some "Lemon Dessert"; item_price := Some (499 # 100)%Q;
     item_description := Some "Straight from grandma"; item_image := Some "lemonDessert.jpg";
     item_category := Some "Desserts" |}.

(** A table with three rows. *)
Definition threeRows : Database :=
  fst (saveMenuItems empty [lemonDessert; greekSalad; untagged]).

(** The persisted file after the first launch of Scenario 1. *)
Definition bootstrapped : Storage :=
  (HomeScreen.initializeDatabase
     (HomeScreen.Document (Some [greekSalad])) None HomeScreen.initial).1.

Definition quote : string := String (ascii_of_nat 34) EmptyString.
Definition quoted (s : string) : string := quote +:+ s +:+ quote.

(** The two records of the key-value store, as JSON text. *)
Definition userDataText : string :=
  "{" +:+ quoted "firstName" +:+ ":" +:+ quoted "Ada" +:+ ","
      +:+ quoted "phoneNumber" +:+ ":" +:+ quoted "" +:+ "}".

Definition profileSettingsText : string :=
  "{" +:+ quoted "phoneNumber" +:+ ":" +:+ quoted "(555) 123-4567" +:+ ","
      +:+ quoted "avatar" +:+ ":null}".

(** [JSON.parse] on these two texts; any other text is taken as
    malformed. *)
Definition parse (text : string) : option JSON.Value :=
  if String.eqb text userDataText then
    Some (JSON.Object [("firstName", JSON.Str "Ada"); ("phoneNumber", JSON.Str "")])
  else if String.eqb text profileSettingsText then
    Some (JSON.Object [("phoneNumber", JSON.Str "(555) 123-4567"); ("avatar", JSON.Null)])
  else None.

Definition asyncStorage : gmap string string :=
  {[ "userData" := userDataText; "profileSettings" := profileSettingsText ]}.

End Samples.

(** ** More of the JavaScript runtime *)

Module JSRuntime.

Fixpoint starts_with (sub text : list ascii) : bool :=
  match sub, text with
  | [], _ => true
  | _ :: _, [] => false
  | c :: sub', d :: text' => Ascii.eqb c d && starts_with sub' text'
  end.

Fixpoint includes_chars (sub text : list ascii) : bool :=
  starts_with sub text ||
  match text with
  | [] => false
  | _ :: text' => includes_chars sub text'
  end.

(** [s.includes(sub)] *)
Definition includes (s sub : string) : bool :=
  includes_chars (JSString.chars sub) (JSString.chars s).

(** The pieces of the anchored patterns the code uses: one given
    character, or a class repeated once or more. *)
Inductive Piece :=
| Char (c : ascii)
| OneOrMore (class : ascii -> bool).

(** [/^pattern$/.test(text)], by backtracking over the repetitions. *)
Fixpoint test_chars (pattern : list Piece) (text : list ascii) : bool :=
  match text with
  | [] => match pattern with [] => true | _ :: _ => false end
  | x :: text' =>
      match pattern with
      | [] => false
      | Char c :: pattern' => Ascii.eqb c x && test_chars pattern' text'
      | OneOrMore class :: pattern' =>
          class x && (test_chars pattern' text' || test_chars pattern text')
      end
  end.

Definition test (pattern : list Piece) (text : string) : bool :=
  test_chars pattern (JSString.chars text).

(** The class [[^\s@]]; below 256 the class [\s] is the white space that
    [trim] removes. *)
Definition not_space_nor_at (c : ascii) : bool :=
  negb (JSString.is_whitespace c) && negb (Ascii.eqb c "@").

(** Truthiness of a parsed JSON value. *)
Definition truthy (v : JSON.Value) : bool :=
  match v with
  | JSON.Null => false
  | JSON.Bool b => b
  | JSON.Number q => negb (Qeq_bool q 0)
  | JSON.Str s => JSString.truthy s
  | JSON.Array _ | JSON.Object _ => true
  end.

(** [v.key] for a value other than null and a key that no prototype
    defines: the own property, or undefined. *)
Definition member (v : JSON.Value) (key : string) : option JSON.Value :=
  JSON.spread v !! key.

(** How the writes of a handler that calls [AsyncStorage.setItem] twice
    go: both resolve, or the first rejects, or the first resolves and the
    second rejects.  A rejected write leaves the store as it was. *)
Inductive WriteFault := NoFault | FirstWrite | SecondWrite.


End JSRuntime.

(** ** The [Onboarding] component *)

Module Onboarding.

Record UserData := {
  firstName : string;
  lastName : string;
  email : string
}.

(** The field names [handleInputChange] is called with. *)
Inductive Field := FirstName | LastName | Email.

(** [currentStep], [userData], and the calls made to the [onComplete]
    property, oldest first. *)
Record State := {
  currentStep : nat;
  userData : UserData;
  completions : list UserData
}.

Definition initial : State :=
  {| currentStep := 0;
     userData := {| firstName := ""; lastName := ""; email := "" |};
     completions := [] |}.

Definition handleInputChange (field : Field) (value : string) (st : State)
    : State :=
  let prev := userData st in
  {| currentStep := currentStep st;
     userData :=
       match field with
       | FirstName => {| firstName := value; lastName := lastName prev; email := email prev |}
       | LastName => {| firstName := firstName prev; lastName := value; email := email prev |}
       | Email => {| firstName := firstName prev; lastName := lastName prev; email := value |}
       end;
     completions := completions st |}.

(** [if (onComplete) onComplete(userData)] *)
Definition complete (onComplete : bool) (st : State) : State :=
  if onComplete then
    {| currentStep := currentStep st; userData := userData st;
       completions := completions st ++ [userData st] |}
  else st.

Definition handleContinue (onComplete : bool) (st : State) : State :=
  if currentStep st <? 3 then
    {| currentStep := currentStep st + 1; userData := userData st;
       completions := completions st |}
  else
    (* Complete onboarding *)
    complete onComplete st.

Definition handleSkipTutorial (onComplete : bool) (st : State) : State :=
  complete onComplete st.

Definition isStepValid (st : State) : bool :=
  match currentStep st with
  | 1 =>
      negb (String.eqb (JSString.trim (firstName (userData st))) "")
      && negb (String.eqb (JSString.trim (lastName (userData st))) "")
  | 2 =>
      negb (String.eqb (JSString.trim (email (userData st))) "")
      && JSRuntime.includes (email (userData st)) "@"
  | _ => true
  end.

(** What the user can do on the screen. *)
Inductive Event :=
| ChangeText (field : Field) (text : string)
| PressContinue
| PressSkip.

(** What [renderStep] offers at each step: step 0 a button, step 1 the
    two name inputs and a button disabled while the step is invalid,
    step 2 the same with the email input, step 3 two buttons, and
    nothing at any other step. *)
Definition offered (st : State) (e : Event) : bool :=
  match currentStep st, e with
  | 0, PressContinue => true
  | 1, ChangeText FirstName _ => true
  | 1, ChangeText LastName _ => true
  | 1, PressContinue => isStepValid st
  | 2, ChangeText Email _ => true
  | 2, PressContinue => isStepValid st
  | 3, PressContinue => true
  | 3, PressSkip => true
  | _, _ => false
  end.

Definition dispatch (onComplete : bool) (st : State) (e : Event) : State :=
  if offered st e then
    match e with
    | ChangeText field text => handleInputChange field text st
    | PressContinue => handleContinue onComplete st
    | PressSkip => handleSkipTutorial onComplete st
    end
  else st.

Definition run (onComplete : bool) (events : list Event) (st : State) : State :=
  foldl (dispatch onComplete) st events.

End Onboarding.

(** ** The [App] component *)

Module App.

Record State := {
  isOnboardingCompleted : bool;
  isLoading : bool;
  showSplash : bool;
  alerts : list (string * string)
}.

Definition initial : State :=
  {| isOnboardingCompleted := false; isLoading := true; showSplash := true;
     alerts := [] |}.

Definition setIsOnboardingCompleted (v : bool) (st : State) : State :=
  {| isOnboardingCompleted := v; isLoading := isLoading st;
     showSplash := showSplash st; alerts := alerts st |}.

Definition setIsLoading (v : bool) (st : State) : State :=
  {| isOnboardingCompleted := isOnboardingCompleted st; isLoading := v;
     showSplash := showSplash st; alerts := alerts st |}.

Definition setShowSplash (v : bool) (st : State) : State :=
  {| isOnboardingCompleted := isOnboardingCompleted st; isLoading := isLoading st;
     showSplash := v; alerts := alerts st |}.

Definition alert (title message : string) (st : State) : State :=
  {| isOnboardingCompleted := isOnboardingCompleted st; isLoading := isLoading st;
     showSplash := showSplash st; alerts := alerts st ++ [(title, message)] |}.

Definition checkOnboardingStatus (asyncStorage : gmap string string)
    (st : State) : State :=
  let onboardingStatus := asyncStorage !! "onboardingCompleted" in
  let st' :=
    if bool_decide (onboardingStatus = Some "true")
    then setIsOnboardingCompleted true st else st in
  setIsLoading false st'.

Definition handleSplashFinish (st : State) : State := setShowSplash false st.

(** The object [Onboarding] hands to [onComplete]. *)
Definition userInfo_value (userInfo : Onboarding.UserData) : JSON.Value :=
  JSON.Object [("firstName", JSON.Str (Onboarding.firstName userInfo));
               ("lastName", JSON.Str (Onboarding.lastName userInfo));
               ("email", JSON.Str (Onboarding.email userInfo))].

Section stringify.
(** [JSON.stringify] *)
Variable JSON_stringify : JSON.Value -> string.

Definition handleOnboardingComplete (fault : JSRuntime.WriteFault)
    (userInfo : Onboarding.UserData)
    (asyncStorage : gmap string string) (st : State)
    : gmap string string * State :=
  (* Save onboarding completion status *)
  let asyncStorage1 := <["onboardingCompleted" := "true"]> asyncStorage in
  let asyncStorage2 :=
    <["userData" := JSON_stringify (userInfo_value userInfo)]> asyncStorage1 in
  match fault with
  | JSRuntime.NoFault =>
      (* Update state to show main app *)
      let st' := setIsOnboardingCompleted true st in
      (asyncStorage2,
       alert "Welcome to Little Lemon!"
             ("Hello " +:+ Onboarding.firstName userInfo
                +:+ "! Your account has been created successfully.") st')
  | JSRuntime.FirstWrite =>
      (asyncStorage,
       alert "Error" "Failed to save your information. Please try again." st)
  | JSRuntime.SecondWrite =>
      (asyncStorage1,
       alert "Error" "Failed to save your information. Please try again." st)
  end.
End stringify.


(** What [App] returns. *)
Inductive Rendered :=
| Splash
| LoadingView
| OnboardingFlow
| MainFlow.

Definition render (st : State) : Rendered :=
  (* Show splash screen first *)
  if showSplash st then Splash
  (* Show loading screen while checking onboarding status *)
  else if isLoading st then LoadingView
  else if negb (isOnboardingCompleted st) then OnboardingFlow
  else MainFlow.

End App.

(** ** The [Profile] component

    The editor's state is typed as its initial value is: four texts, an
    avatar that is null or a text, four boolean flags.  The handlers keep
    these types, and so do the records that [saveChanges] and the
    onboarding write. *)

Module ProfileScreen.

Record Notifications := {
  orderStatuses : bool;
  passwordChanges : bool;
  specialOffers : bool;
  newsletter : bool
}.

Record ProfileData := {
  firstName : string;
  lastName : string;
  email : string;
  phoneNumber : string;
  avatar : option string;
  notifications : Notifications
}.

Record State := {
  profileData : ProfileData;
  hasChanges : bool;
  alerts : list (string * string)
}.

Definition initial : State :=
  {| profileData :=
       {| firstName := ""; lastName := ""; email := ""; phoneNumber := "";
          avatar := None;
          notifications :=
            {| orderStatuses := true; passwordChanges := true;
               specialOffers := true; newsletter := true |} |};
     hasChanges := false;
     alerts := [] |}.

Definition setProfileData (f : ProfileData -> ProfileData) (st : State) : State :=
  {| profileData := f (profileData st); hasChanges := hasChanges st;
     alerts := alerts st |}.

Definition setHasChanges (v : bool) (st : State) : State :=
  {| profileData := profileData st; hasChanges := v; alerts := alerts st |}.

Definition alert (title message : string) (st : State) : State :=
  {| profileData := profileData st; hasChanges := hasChanges st;
     alerts := alerts st ++ [(title, message)] |}.

(** The field names [handleInputChange] is called with. *)
Inductive Field := FirstName | LastName | Email | PhoneNumber.

(** The keys [handleNotificationChange] is called with. *)
Inductive NotificationType :=
| OrderStatuses
| PasswordChanges
| SpecialOffers
| Newsletter.

Definition set_field (field : Field) (value : string) (prev : ProfileData)
    : ProfileData :=
  match field with
  | FirstName =>
      {| firstName := value; lastName := lastName prev; email := email prev;
         phoneNumber := phoneNumber prev; avatar := avatar prev;
         notifications := notifications prev |}
  | LastName =>
      {| firstName := firstName prev; lastName := value; email := email prev;
         phoneNumber := phoneNumber prev; avatar := avatar prev;
         notifications := notifications prev |}
  | Email =>
      {| firstName := firstName prev; lastName := lastName prev; email := value;
         phoneNumber := phoneNumber prev; avatar := avatar prev;
         notifications := notifications prev |}
  | PhoneNumber =>
      {| firstName := firstName prev; lastName := lastName prev; email := email prev;
         phoneNumber := value; avatar := avatar prev;
         notifications := notifications prev |}
  end.

Definition set_avatar (value : option string) (prev : ProfileData) : ProfileData :=
  {| firstName := firstName prev; lastName := lastName prev; email := email prev;
     phoneNumber := phoneNumber prev; avatar := value;
     notifications := notifications prev |}.

Definition set_notifications (value : Notifications) (prev : ProfileData)
    : ProfileData :=
  {| firstName := firstName prev; lastName := lastName prev; email := email prev;
     phoneNumber := phoneNumber prev; avatar := avatar prev;
     notifications := value |}.

Definition handleInputChange (field : Field) (value : string) (st : State)
    : State :=
  let st' :=
    match field with
    | PhoneNumber =>
        (* Format phone number as user types *)
        let formatted := Profile.formatPhoneNumber value in
        setProfileData (set_field field formatted) st
    | _ => setProfileData (set_field field value) st
    end in
  setHasChanges true st'.

(** [{ ...prev.notifications, [type]: !prev.notifications[type] }] *)
Definition flip (type : NotificationType) (n : Notifications) : Notifications :=
  match type with
  | OrderStatuses =>
      {| orderStatuses := negb (orderStatuses n); passwordChanges := passwordChanges n;
         specialOffers := specialOffers n; newsletter := newsletter n |}
  | PasswordChanges =>
      {| orderStatuses := orderStatuses n; passwordChanges := negb (passwordChanges n);
         specialOffers := specialOffers n; newsletter := newsletter n |}
  | SpecialOffers =>
      {| orderStatuses := orderStatuses n; passwordChanges := passwordChanges n;
         specialOffers := negb (specialOffers n); newsletter := newsletter n |}
  | Newsletter =>
      {| orderStatuses := orderStatuses n; passwordChanges := passwordChanges n;
         specialOffers := specialOffers n; newsletter := negb (newsletter n) |}
  end.

(** [profileData.notifications[key]], which the check box shows. *)
Definition checked (type : NotificationType) (n : Notifications) : bool :=
  match type with
  | OrderStatuses => orderStatuses n
  | PasswordChanges => passwordChanges n
  | SpecialOffers => specialOffers n
  | Newsletter => newsletter n
  end.

Definition handleNotificationChange (type : NotificationType) (st : State)
    : State :=
  let st' :=
    setProfileData (fun prev => set_notifications (flip type (notifications prev)) prev)
                   st in
  setHasChanges true st'.

(** [pickImage], given what the picker answers: nothing when the user
    cancels, else the uri of the picked asset. *)
Definition pickImage (picked : option string) (st : State) : State :=
  match picked with
  | Some uri => setHasChanges true (setProfileData (set_avatar (Some uri)) st)
  | None => st
  end.

(** The [Remove] button of the dialog [removeImage] opens. *)
Definition removeImage_confirmed (st : State) : State :=
  setHasChanges true (setProfileData (set_avatar None) st).

(** [/^[^\s@]+@[^\s@]+\.[^\s@]+$/] *)
Definition emailRegex : list JSRuntime.Piece :=
  [JSRuntime.OneOrMore JSRuntime.not_space_nor_at; JSRuntime.Char "@";
   JSRuntime.OneOrMore JSRuntime.not_space_nor_at; JSRuntime.Char ".";
   JSRuntime.OneOrMore JSRuntime.not_space_nor_at].

(** The two objects [saveChanges] serialises. *)
Definition userData_value (p : ProfileData) : JSON.Value :=
  JSON.Object [("firstName", JSON.Str (firstName p));
               ("lastName", JSON.Str (lastName p));
               ("email", JSON.Str (email p))].

Definition notifications_value (n : Notifications) : JSON.Value :=
  JSON.Object [("orderStatuses", JSON.Bool (orderStatuses n));
               ("passwordChanges", JSON.Bool (passwordChanges n));
               ("specialOffers", JSON.Bool (specialOffers n));
               ("newsletter", JSON.Bool (newsletter n))].

Definition avatar_value (a : option string) : JSON.Value :=
  match a with
  | Some uri => JSON.Str uri
  | None => JSON.Null
  end.

Definition profileSettings_value (p : ProfileData) : JSON.Value :=
  JSON.Object [("phoneNumber", JSON.Str (phoneNumber p));
               ("avatar", avatar_value (avatar p));
               ("notifications", notifications_value (notifications p))].

Section json.
(** [JSON.stringify], and [JSON.parse] with [None] for a SyntaxError. *)
Variable JSON_stringify : JSON.Value -> string.
Variable JSON_parse : string -> option JSON.Value.

Definition saveChanges (fault : JSRuntime.WriteFault)
    (asyncStorage : gmap string string) (st : State)
    : gmap string string * State :=
  let p := profileData st in
  (* Validate required fields *)
  if negb (JSString.truthy (JSString.trim (firstName p)))
     || negb (JSString.truthy (JSString.trim (email p))) then
    (asyncStorage, alert "Error" "First name and email are required." st)
  (* Validate email format *)
  else if negb (JSRuntime.test emailRegex (email p)) then
    (asyncStorage, alert "Error" "Please enter a valid email address." st)
  (* Validate phone number if provided *)
  else if JSString.truthy (phoneNumber p)
          && negb (Profile.isValidPhoneNumber (phoneNumber p)) then
    (asyncStorage, alert "Error" "Please enter a valid 10-digit phone number." st)
  else
    (* Save basic user data *)
    let asyncStorage1 :=
      <["userData" := JSON_stringify (userData_value p)]> asyncStorage in
    (* Save complete profile settings *)
    let asyncStorage2 :=
      <["profileSettings" := JSON_stringify (profileSettings_value p)]>
        asyncStorage1 in
    match fault with
    | JSRuntime.NoFault =>
        (asyncStorage2,
         alert "Success" "Your changes have been saved successfully!"
               (setHasChanges false st))
    | JSRuntime.FirstWrite =>
        (asyncStorage, alert "Error" "Failed to save changes. Please try again." st)
    | JSRuntime.SecondWrite =>
        (asyncStorage1, alert "Error" "Failed to save changes. Please try again." st)
    end.

(** [member || ''], when the outcome is a text. *)
Definition text_or_empty (m : option JSON.Value) : option string :=
  match m with
  | None => Some ""
  | Some v =>
      if JSRuntime.truthy v then
        match v with JSON.Str s => Some s | _ => None end
      else Some ""
  end.

Definition as_text (v : JSON.Value) : option string :=
  match v with JSON.Str s => Some s | _ => None end.

Definition as_avatar (v : JSON.Value) : option (option string) :=
  match v with
  | JSON.Null => Some None
  | JSON.Str s => Some (Some s)
  | _ => None
  end.

Definition as_flag (m : gmap string JSON.Value) (key : string) : option bool :=
  match m !! key with
  | Some (JSON.Bool b) => Some b
  | _ => None
  end.

(** An object with the four flags, each a boolean, and nothing else. *)
Definition as_notifications (v : JSON.Value) : option Notifications :=
  match v with
  | JSON.Object _ =>
      let m := JSON.spread v in
      match as_flag m "orderStatuses", as_flag m "passwordChanges",
            as_flag m "specialOffers", as_flag m "newsletter" with
      | Some b1, Some b2, Some b3, Some b4 =>
          if size m =? 4 then
            Some {| orderStatuses := b1; passwordChanges := b2;
                    specialOffers := b3; newsletter := b4 |}
          else None
      | _, _, _, _ => None
      end
  | _ => None
  end.

(** One member of [{ ...prev, ...parsedSettings }]: the member of
    [parsedSettings] when there is one, else what [prev] has. *)
Definition overlay {A} (coerce : JSON.Value -> option A)
    (m : option JSON.Value) (prev : A) : option A :=
  match m with
  | Some v => coerce v
  | None => Some prev
  end.

(** [{ ...prev, ...parsedSettings }] on the members the editor has;
    [None] when a member of [parsedSettings] is not of the editor's
    type. *)
Definition spread_settings (parsedSettings : JSON.Value) (prev : ProfileData)
    : option ProfileData :=
  let m := JSON.spread parsedSettings in
  match overlay as_text (m !! "firstName") (firstName prev),
        overlay as_text (m !! "lastName") (lastName prev),
        overlay as_text (m !! "email") (email prev),
        overlay as_text (m !! "phoneNumber") (phoneNumber prev),
        overlay as_avatar (m !! "avatar") (avatar prev),
        overlay as_notifications (m !! "notifications") (notifications prev) with
  | Some f, Some l, Some e, Some p, Some a, Some n =>
      Some {| firstName := f; lastName := l; email := e; phoneNumber := p;
              avatar := a; notifications := n |}
  | _, _, _, _, _, _ => None
  end.

(** [loadProfileData].  The result is [None] when a stored record gives
    a member a type the editor never writes, which the typed state cannot
    hold; otherwise it is the state the function leaves.  An exception
    ([JSON.parse] on a malformed text, a member read on null) ends the
    function and keeps the updates made before it. *)
Definition loadProfileData (asyncStorage : gmap string string) (st : State)
    : option State :=
  let userData := asyncStorage !! "userData" in
  let profileSettings := asyncStorage !! "profileSettings" in
  let settings_step (st1 : State) : option State :=
    match HomeScreen.present profileSettings with
    | Some text =>
        match JSON_parse text with
        | None => Some st1
        | Some parsedSettings =>
            match spread_settings parsedSettings (profileData st1) with
            | Some p => Some (setProfileData (fun _ => p) st1)
            | None => None
            end
        end
    | None => Some st1
    end in
  match HomeScreen.present userData with
  | Some text =>
      match JSON_parse text with
      | None => Some st
      | Some JSON.Null => Some st
      | Some parsedUserData =>
          match text_or_empty (JSRuntime.member parsedUserData "firstName"),
                text_or_empty (JSRuntime.member parsedUserData "lastName"),
                text_or_empty (JSRuntime.member parsedUserData "email") with
          | Some f, Some l, Some e =>
              settings_step
                (setProfileData
                   (fun prev =>
                      {| firstName := f; lastName := l; email := e;
                         phoneNumber := phoneNumber prev; avatar := avatar prev;
                         notifications := notifications prev |})
                   st)
          | _, _, _ => None
          end
      end
  | None => settings_step st
  end.

(** The [Discard] button of the dialog [discardChanges] opens. *)
Definition discardChanges_confirmed (asyncStorage : gmap string string)
    (st : State) : option State :=
  match loadProfileData asyncStorage st with
  | Some st' => Some (setHasChanges false st')
  | None => None
  end.
End json.


End ProfileScreen.

(** ** Sample data for the profile and the onboarding *)

Module ProfileSamples.

Definition ada : Onboarding.UserData :=
  {| Onboarding.firstName := "Ada"; Onboarding.lastName := "Lovelace";
     Onboarding.email := "ada@example.com" |}.

(** The onboarding after the names were entered and accepted and the
    email was typed. *)
Definition atEmailStep : Onboarding.State :=
  Onboarding.run true
    [Onboarding.PressContinue;
     Onboarding.ChangeText Onboarding.FirstName "Ada";
     Onboarding.ChangeText Onboarding.LastName "Lovelace";
     Onboarding.PressContinue;
     Onboarding.ChangeText Onboarding.Email "ada@example.com"]
    Onboarding.initial.

Definition adaProfile : ProfileScreen.ProfileData :=
  {| ProfileScreen.firstName := "Ada"; ProfileScreen.lastName := "Lovelace";
     ProfileScreen.email := "ada@example.com";
     ProfileScreen.phoneNumber := "(555) 123-4567";
     ProfileScreen.avatar := None;
     ProfileScreen.notifications :=
       {| ProfileScreen.orderStatuses := true; ProfileScreen.passwordChanges := false;
          ProfileScreen.specialOffers := true; ProfileScreen.newsletter := false |} |}.

Definition adaEdited : ProfileScreen.State :=
  {| ProfileScreen.profileData := adaProfile; ProfileScreen.hasChanges := true;
     ProfileScreen.alerts := [] |}.

Definition member_text (key value : string) : string :=
  Samples.quoted key +:+ ":" +:+ value.

Definition userDataText : string :=
  "{" +:+ member_text "firstName" (Samples.quoted "Ada") +:+ ","
      +:+ member_text "lastName" (Samples.quoted "Lovelace") +:+ ","
      +:+ member_text "email" (Samples.quoted "ada@example.com") +:+ "}".

Definition profileSettingsText : string :=
  "{" +:+ member_text "phoneNumber" (Samples.quoted "(555) 123-4567") +:+ ","
      +:+ member_text "avatar" "null" +:+ ","
      +:+ member_text "notifications"
            ("{" +:+ member_text "orderStatuses" "true" +:+ ","
                 +:+ member_text "passwordChanges" "false" +:+ ","
                 +:+ member_text "specialOffers" "true" +:+ ","
                 +:+ member_text "newsletter" "false" +:+ "}")
      +:+ "}".

(** [JSON.stringify] and [JSON.parse] on the two records of this user. *)
Definition stringify (v : JSON.Value) : string :=
  match v with
  | JSON.Object ((key, _) :: _) =>
      if String.eqb key "firstName" then userDataText else profileSettingsText
  | _ => "null"
  end.

Definition parse (text : string) : option JSON.Value :=
  if String.eqb text userDataText then
    Some (ProfileScreen.userData_value adaProfile)
  else if String.eqb text profileSettingsText then
    Some (ProfileScreen.profileSettings_value adaProfile)
  else None.

End ProfileSamples.

(** * Properties *)

(** ** Strings *)

Section string_facts.
Import JSString.

Lemma chars_str l : chars (str l) = l.
Proof. apply String.list_ascii_of_string_of_list_ascii. Qed.

Lemma str_chars s : str (chars s) = s.
Proof. apply String.string_of_list_ascii_of_string. Qed.

Lemma chars_inj s1 s2 : chars s1 = chars s2 -> s1 = s2.
Proof. intros E. rewrite <- (str_chars s1), <- (str_chars s2). by rewrite E. Qed.

Lemma chars_app s1 s2 : chars (s1 +:+ s2) = chars s1 ++ chars s2.
Proof.
  unfold chars. induction s1 as [|c s1 IH]; [done|].
  change (String c s1 +:+ s2) with (String c (s1 +:+ s2)). simpl. by rewrite IH.
Qed.

Lemma chars_cons c s : chars (String c s) = c :: chars s.
Proof. done. Qed.

Lemma truthy_chars s : truthy s = false <-> chars s = [].
Proof. destruct s; simpl; split; done. Qed.

Lemma chars_substring s a b :
  a <= b -> chars (substring s a b) = take (b - a) (drop a (chars s)).
Proof.
  intros Hab. unfold substring, length. rewrite chars_str.
  set (l := chars s). set (n := List.length l).
  destruct (decide (a <= n)) as [Ha|Ha].
  - replace ((a `min` n) `min` (b `min` n)) with a by lia.
    destruct (decide (b <= n)) as [Hb|Hb].
    + f_equal. lia.
    + replace ((a `min` n) `max` (b `min` n) - a) with (n - a) by lia.
      rewrite !take_ge; [done | rewrite length_drop; lia | rewrite length_drop; lia].
  - replace ((a `min` n) `min` (b `min` n)) with n by lia.
    rewrite !drop_ge by (subst n; lia). by rewrite !take_nil.
Qed.

Lemma chars_substring_from s a : chars (substring_from s a) = drop a (chars s).
Proof.
  unfold substring_from. destruct (decide (a <= length s)) as [Ha|Ha].
  - rewrite chars_substring by done. apply take_ge. rewrite length_drop. unfold length. lia.
  - unfold substring, length in *. rewrite chars_str.
    set (n := List.length (chars s)) in *.
    replace ((a `min` n) `min` (n `min` n)) with n by lia.
    rewrite !drop_ge by (subst n; lia). by rewrite take_nil.
Qed.

Lemma filter_all {A} (f : A -> bool) l :
  Forall (fun x => f x = true) l -> List.filter f l = l.
Proof. induction 1 as [|x l Hx _ IH]; simpl; [done|]. by rewrite Hx, IH. Qed.

Lemma filter_Forall {A} (f : A -> bool) l :
  Forall (fun x => f x = true) (List.filter f l).
Proof.
  induction l as [|x l IH]; simpl; [constructor|].
  destruct (f x) eqn:E; [by constructor | done].
Qed.

End string_facts.

(** ** Phone numbers *)

Section phone.
Import JSString Profile.

Lemma digits_app s1 s2 : digits (s1 +:+ s2) = digits s1 ++ digits s2.
Proof. unfold digits. by rewrite chars_app, List.filter_app. Qed.

Lemma digits_all s :
  Forall (fun c => is_digit c = true) (chars s) -> digits s = chars s.
Proof. apply filter_all. Qed.

Lemma take3_take3_drop6 {A} (l : list A) :
  take 3 l ++ take 3 (drop 3 l) ++ drop 6 l = l.
Proof.
  change 6 with (3 + 3). rewrite <- (drop_drop l 3 3).
  by rewrite (take_drop 3 (drop 3 l)), take_drop.
Qed.

Lemma chars_truncated value :
  chars (substring (replace_non_digits value) 0 10) = take 10 (digits value).
Proof.
  rewrite chars_substring by lia. unfold replace_non_digits.
  by rewrite chars_str, drop_0.
Qed.

(** The formatted text is a function of the first ten digits. *)
Lemma formatPhoneNumber_truncated v1 v2 :
  take 10 (digits v1) = take 10 (digits v2) ->
  formatPhoneNumber v1 = formatPhoneNumber v2.
Proof.
  intros E. unfold formatPhoneNumber.
  assert (substring (replace_non_digits v1) 0 10
          = substring (replace_non_digits v2) 0 10) as ->; [|done].
  apply chars_inj. by rewrite !chars_truncated.
Qed.

Lemma digits_formatPhoneNumber value :
  digits (formatPhoneNumber value) = take 10 (digits value).
Proof.
  unfold formatPhoneNumber.
  set (t := substring (replace_non_digits value) 0 10).
  assert (Ht : chars t = take 10 (digits value)) by apply chars_truncated.
  assert (Hd : Forall (fun c => is_digit c = true) (chars t)).
  { rewrite Ht. apply Forall_take, filter_Forall. }
  rewrite <- Ht. unfold length.
  destruct (6 <=? List.length (chars t)) eqn:H6;
    [|destruct (3 <=? List.length (chars t)) eqn:H3;
      [|destruct (0 <? List.length (chars t)) eqn:H0]].
  - rewrite !digits_app.
    rewrite (digits_all (substring t 0 3)), (digits_all (substring t 3 6)),
      (digits_all (substring_from t 6)).
    + rewrite !chars_substring, chars_substring_from by lia. simpl.
      rewrite drop_0. apply take3_take3_drop6.
    + rewrite chars_substring_from. by apply Forall_drop.
    + rewrite chars_substring by lia. by apply Forall_take, Forall_drop.
    + rewrite chars_substring by lia. by apply Forall_take, Forall_drop.
  - rewrite !digits_app.
    rewrite (digits_all (substring t 0 3)), (digits_all (substring_from t 3)).
    + rewrite chars_substring, chars_substring_from by lia. simpl.
      by rewrite drop_0, take_drop.
    + rewrite chars_substring_from. by apply Forall_drop.
    + rewrite chars_substring by lia. by apply Forall_take, Forall_drop.
  - rewrite digits_app. simpl. by apply digits_all.
  - by apply digits_all.
Qed.

(** C2, as amended.  Formatting "5551234567" gives "(555) 123-4567";
    formatting "555123" gives "(555) 123-", the dash being written as soon
    as six digits are there; and a value passes [isValidPhoneNumber]
    exactly when it holds ten digits. *)
Theorem formatPhoneNumber_scenario :
  formatPhoneNumber "5551234567" = "(555) 123-4567" /\
  formatPhoneNumber "555123" = "(555) 123-" /\
  forall phone : string,
    isValidPhoneNumber phone = true <-> List.length (digits phone) = 10.
Proof.
  split; [by vm_compute|]. split; [by vm_compute|].
  intros phone. unfold isValidPhoneNumber, length, replace_non_digits.
  rewrite chars_str. fold (digits phone). apply Nat.eqb_eq.
Qed.

(** C2 as stated fails on its second input: the six digits "555123" are
    not formatted as "(555) 123". *)
Lemma formatPhoneNumber_six_digits_not_bare :
  formatPhoneNumber "555123" <> "(555) 123".
Proof. by vm_compute. Qed.

(** C10.  The digits of the formatted text are the first ten digits of
    the input, later ones being dropped, and formatting a formatted text
    changes nothing. *)
Theorem formatPhoneNumber_keeps_ten_digits_idempotent :
  forall value : string,
    digits (formatPhoneNumber value) = take 10 (digits value) /\
    List.length (digits (formatPhoneNumber value)) <= 10 /\
    formatPhoneNumber (formatPhoneNumber value) = formatPhoneNumber value.
Proof.
  intros value. pose proof (digits_formatPhoneNumber value) as Hd.
  split; [done|]. split.
  - rewrite Hd, length_take. lia.
  - apply formatPhoneNumber_truncated. rewrite Hd. by rewrite take_take.
Qed.

End phone.

(** ** White space trimming *)

Section trim_facts.
Import JSString.

Local Abbreviation blank := (fun c => is_whitespace c = true).

Lemma trim_start_split l :
  exists pre, l = pre ++ trim_start l /\ Forall blank pre.
Proof.
  induction l as [|c l [pre [E Hpre]]]; simpl.
  - by exists [].
  - destruct (is_whitespace c) eqn:Hc.
    + exists (c :: pre). split; [by rewrite E at 1 | by constructor].
    + by exists [].
Qed.

Lemma trim_start_head l c :
  head (trim_start l) = Some c -> is_whitespace c = false.
Proof.
  induction l as [|d l IH]; simpl; [done|].
  destruct (is_whitespace d) eqn:Hd; [done|]. simpl. congruence.
Qed.

Lemma trim_start_blank l : Forall blank l -> trim_start l = [].
Proof. induction 1 as [|c l Hc _ IH]; simpl; [done|]. by rewrite Hc. Qed.

Lemma trim_start_fixed l :
  (forall c, head l = Some c -> is_whitespace c = false) -> trim_start l = l.
Proof. destruct l as [|c l]; simpl; [done|]. intros H. by rewrite (H c). Qed.

Lemma trim_start_app l c l' :
  is_whitespace c = false ->
  trim_start (l ++ c :: l') = trim_start l ++ c :: l'.
Proof.
  intros Hc. induction l as [|d l IH]; simpl; [by rewrite Hc|].
  by destruct (is_whitespace d).
Qed.

Lemma trim_end_cons c l :
  is_whitespace c = false -> trim_end (c :: l) = c :: trim_end l.
Proof.
  intros Hc. unfold trim_end.
  by rewrite reverse_cons, trim_start_app, reverse_app.
Qed.

Lemma trim_end_split l :
  exists post, l = trim_end l ++ post /\ Forall blank post.
Proof.
  unfold trim_end. destruct (trim_start_split (reverse l)) as [pre [E Hpre]].
  exists (reverse pre). split.
  - rewrite <- reverse_app, <- E. by rewrite reverse_involutive.
  - by apply Forall_reverse.
Qed.

Lemma trim_end_last l c :
  last (trim_end l) = Some c -> is_whitespace c = false.
Proof.
  unfold trim_end. rewrite last_reverse. apply trim_start_head.
Qed.

Lemma trim_end_head l :
  (forall c, head l = Some c -> is_whitespace c = false) ->
  forall c, head (trim_end l) = Some c -> is_whitespace c = false.
Proof.
  destruct l as [|d l]; [done|]. intros H. specialize (H d eq_refl).
  rewrite trim_end_cons by done. simpl. congruence.
Qed.

Lemma trim_end_fixed l :
  (forall c, last l = Some c -> is_whitespace c = false) -> trim_end l = l.
Proof.
  intros H. unfold trim_end. rewrite trim_start_fixed; [apply reverse_involutive|].
  intros c. rewrite head_reverse. apply H.
Qed.

Lemma chars_trim s : chars (trim s) = trim_end (trim_start (chars s)).
Proof. unfold trim. apply chars_str. Qed.

Lemma trim_head s c :
  head (chars (trim s)) = Some c -> is_whitespace c = false.
Proof. rewrite chars_trim. apply trim_end_head, trim_start_head. Qed.

Lemma trim_last s c :
  last (chars (trim s)) = Some c -> is_whitespace c = false.
Proof. rewrite chars_trim. apply trim_end_last. Qed.

Lemma trim_trim s : trim (trim s) = trim s.
Proof.
  apply chars_inj. rewrite (chars_trim (trim s)).
  rewrite trim_start_fixed by apply trim_head.
  apply trim_end_fixed, trim_last.
Qed.

Lemma trim_split s :
  exists pre post,
    chars s = pre ++ chars (trim s) ++ post /\ Forall blank pre /\ Forall blank post.
Proof.
  destruct (trim_start_split (chars s)) as [pre [E1 Hpre]].
  destruct (trim_end_split (trim_start (chars s))) as [post [E2 Hpost]].
  exists pre, post. rewrite chars_trim, <- E2. done.
Qed.

Lemma trim_blank s : Forall blank (chars s) -> trim s = "".
Proof. intros H. unfold trim. by rewrite trim_start_blank. Qed.

Lemma trim_empty : trim "" = "".
Proof. done. Qed.

End trim_facts.

(** ** Queries on the menu table *)

Section query_facts.
Import SQLite DatabaseOperations.

#[local] Instance name_le_total : Total name_le.
Proof. intros r1 r2. apply (total String.le). Qed.

#[local] Instance name_le_transitive : Transitive name_le.
Proof. intros r1 r2 r3. apply (transitivity (R := String.le)). Qed.

Lemma insert_by_name_perm row sorted : insert_by_name row sorted ≡ₚ row :: sorted.
Proof.
  induction sorted as [|r rest IH]; simpl; [done|].
  destruct (decide (name_le row r)); [done|]. rewrite IH. apply perm_swap.
Qed.

Lemma insert_by_name_sorted row sorted :
  Sorted name_le sorted -> Sorted name_le (insert_by_name row sorted).
Proof.
  induction 1 as [|r rest Hrest IH Hhd]; simpl; [by repeat constructor|].
  destruct (decide (name_le row r)) as [Hle|Hnle].
  - constructor; [by constructor | by constructor].
  - assert (name_le r row) as Hrle by (by destruct (total name_le row r)).
    constructor; [exact IH|].
    destruct Hhd as [|r' rest' Hr']; simpl; [by constructor|].
    destruct (decide (name_le row r')); by constructor.
Qed.

Lemma order_by_name_perm rows : order_by_name rows ≡ₚ rows.
Proof.
  unfold order_by_name. induction rows as [|row rows IH]; simpl; [done|].
  by rewrite insert_by_name_perm, IH.
Qed.

Lemma order_by_name_sorted rows : StronglySorted name_le (order_by_name rows).
Proof.
  apply Sorted_StronglySorted; [apply _|].
  unfold order_by_name. induction rows as [|row rows IH]; simpl; [constructor|].
  by apply insert_by_name_sorted.
Qed.

Lemma elem_of_filter {A} (f : A -> bool) l x :
  x ∈ List.filter f l <-> x ∈ l /\ f x = true.
Proof. rewrite !list_elem_of_In. apply List.filter_In. Qed.

Lemma elem_of_select_menu database where_ row :
  row ∈ select_menu database where_ <->
  row ∈ menu database /\ forallb (holds row) where_ = true.
Proof.
  unfold select_menu. rewrite order_by_name_perm.
  apply (elem_of_filter (fun r => forallb (holds r) where_)).
Qed.

Lemma filter_sublist {A} (f g : A -> bool) l :
  (forall x, f x = true -> g x = true) ->
  sublist (List.filter f l) (List.filter g l).
Proof.
  intros Hfg. induction l as [|x l IH]; simpl; [done|].
  destruct (f x) eqn:Hf.
  - rewrite (Hfg x Hf). by constructor.
  - destruct (g x); [by constructor | done].
Qed.

Lemma select_menu_app database where1 where2 :
  select_menu database (where1 ++ where2) ⊆+ select_menu database where2.
Proof.
  unfold select_menu. rewrite !order_by_name_perm.
  apply sublist_submseteq, filter_sublist.
  intros row. rewrite forallb_app. by intros [_ ?]%andb_true_iff.
Qed.

(** The text condition [filterBySearchAndCategories] sends for a query. *)
Lemma searchText_condition searchText :
  (if JSString.truthy searchText && JSString.truthy (JSString.trim searchText)
   then [NameLike ("%" +:+ JSString.trim searchText +:+ "%")] else [])
  = if JSString.truthy (JSString.trim searchText)
    then [NameLike ("%" +:+ JSString.trim searchText +:+ "%")] else [].
Proof. by destruct searchText. Qed.

Lemma filterBySearchAndCategories_trim database searchText categories :
  filterBySearchAndCategories database searchText categories
  = filterBySearchAndCategories database (JSString.trim searchText) categories.
Proof.
  unfold filterBySearchAndCategories.
  by rewrite !searchText_condition, !trim_trim.
Qed.

Lemma in_list_spec value values :
  in_list value values = true <-> exists v, value = Some v /\ v ∈ values.
Proof.
  destruct value as [v|]; simpl.
  - rewrite existsb_exists. split.
    + intros [x [Hx ->%String.eqb_eq]]. exists x. by rewrite list_elem_of_In.
    + intros [x [[= ->] Hx]]. exists x. by rewrite <- list_elem_of_In, String.eqb_refl.
  - split; [done | by intros [? [? _]]].
Qed.

(** Which rows a filter query returns. *)
Lemma elem_of_filterBySearchAndCategories database searchText categories row :
  row ∈ filterBySearchAndCategories database searchText categories <->
  row ∈ menu database
  /\ (JSString.trim searchText = ""
      \/ like (name row) ("%" +:+ JSString.trim searchText +:+ "%") = true)
  /\ (categories = []
      \/ exists c, category row = Some c /\ c ∈ categories).
Proof.
  unfold filterBySearchAndCategories.
  rewrite searchText_condition, elem_of_select_menu, forallb_app, andb_true_iff.
  assert (forallb (holds row)
            (if JSString.truthy (JSString.trim searchText)
             then [NameLike ("%" +:+ JSString.trim searchText +:+ "%")] else [])
          = true
          <-> JSString.trim searchText = ""
              \/ like (name row) ("%" +:+ JSString.trim searchText +:+ "%") = true)
    as ->.
  { destruct (JSString.trim searchText) eqn:E; simpl; [by intuition|].
    rewrite andb_true_r. by intuition. }
  assert (forallb (holds row)
            (if 0 <? List.length categories then [CategoryIn categories] else [])
          = true
          <-> categories = [] \/ exists c, category row = Some c /\ c ∈ categories)
    as ->; [|done].
  destruct categories as [|c0 cs]; simpl; [by intuition|].
  rewrite andb_true_r.
  fold (in_list (category row) (c0 :: cs)). rewrite in_list_spec. by intuition.
Qed.

Lemma filter_Permutation_bool {A} (f : A -> bool) (l1 l2 : list A) :
  l1 ≡ₚ l2 -> List.filter f l1 ≡ₚ List.filter f l2.
Proof.
  induction 1 as [|x l1 l2 _ IH|x y l|l1 l2 l3 _ IH1 _ IH2]; simpl.
  - done.
  - destruct (f x); by rewrite IH.
  - destruct (f x), (f y); by try apply perm_swap.
  - by etrans.
Qed.

(** The names a query returns do not depend on the order in which the
    rows were inserted. *)
Lemma select_menu_names_insertion_order database1 database2 where_ :
  menu database1 ≡ₚ menu database2 ->
  name <$> select_menu database1 where_ = name <$> select_menu database2 where_.
Proof.
  intros Hperm. apply (StronglySorted_unique String.le).
  - eapply StronglySorted_fmap; [|apply order_by_name_sorted]. done.
  - eapply StronglySorted_fmap; [|apply order_by_name_sorted]. done.
  - unfold select_menu. rewrite !order_by_name_perm.
    by rewrite (filter_Permutation_bool _ _ _ Hperm).
Qed.

(** Rows of equal name are returned in the order of their ids. *)
Example getAllMenuItems_ties :
  id <$> getAllMenuItems
           (saveMenuItems Samples.threeRows
              [Samples.lemonDessert; Samples.greekSalad; Samples.untagged]).1
  = [2; 5; 3; 6; 1; 4]%Z.
Proof. by vm_compute. Qed.

(** A NUL character ends the pattern: the text [d], NUL, [zz] is matched
    as the pattern [%d]. *)
Example filter_pattern_ends_at_nul :
  name <$> filterBySearchAndCategories Samples.threeRows
             (String "d" (String "000" "zz")) []
  = ["Greek Salad"].
Proof. by vm_compute. Qed.

(** Scenario 3: a search for "salad" finds "Greek Salad", whatever the
    case of the letters, and not the two lemon dishes. *)
Example filter_salad :
  name <$> filterBySearchAndCategories Samples.threeRows "salad" []
  = ["Greek Salad"].
Proof. by vm_compute. Qed.

(** Scenario 4: a category alone selects the rows tagged with it. *)
Example filter_desserts :
  name <$> filterBySearchAndCategories Samples.threeRows "" ["Desserts"]
  = ["Lemon Dessert"].
Proof. by vm_compute. Qed.

(** The characters [%] and [_] of a search text are wildcards of LIKE. *)
Example filter_wildcard :
  name <$> filterBySearchAndCategories Samples.threeRows "k_s" []
  = ["Greek Salad"].
Proof. by vm_compute. Qed.


(** C1.  With an empty search text the filter is the category-only query,
    so the text constrains nothing; with no category selected a row is
    returned whatever its category; with both empty the result is that of
    [getAllMenuItems], row for row. *)
Theorem filter_empty_inputs :
  forall database : Database,
    (forall categories,
        filterBySearchAndCategories database "" categories
        = filterByCategories database categories) /\
    (forall categories row,
        row ∈ filterBySearchAndCategories database "" categories <->
        row ∈ menu database /\
        (categories = [] \/ exists c, category row = Some c /\ c ∈ categories)) /\
    (forall searchText row,
        row ∈ filterBySearchAndCategories database searchText [] <->
        row ∈ menu database /\
        (JSString.trim searchText = ""
         \/ like (name row) ("%" +:+ JSString.trim searchText +:+ "%") = true)) /\
    filterBySearchAndCategories database "" [] = getAllMenuItems database.
Proof.
  intros database. split; [|split; [|split]].
  - by intros [|c cs].
  - intros categories row.
    rewrite elem_of_filterBySearchAndCategories, trim_empty. intuition auto.
  - intros searchText row.
    rewrite elem_of_filterBySearchAndCategories. intuition auto.
  - done.
Qed.

(** C3.  Whatever the search text, empty or not, and whatever the
    categories, the rows of [Filter(searchText, categories)] are among the
    rows of [Filter("", categories)], each as many times at most. *)
Theorem filter_text_never_widens :
  forall (database : Database) (searchText : string) (categories : list string),
    filterBySearchAndCategories database searchText categories
      ⊆+ filterBySearchAndCategories database "" categories /\
    filterBySearchAndCategories database searchText categories
      ⊆ filterBySearchAndCategories database "" categories.
Proof.
  intros database searchText categories.
  assert (filterBySearchAndCategories database searchText categories
            ⊆+ filterBySearchAndCategories database "" categories) as H.
  { unfold filterBySearchAndCategories at 2. simpl. apply select_menu_app. }
  split; [done|]. intros row Hrow. by eapply elem_of_submseteq.
Qed.

(** C4.  For every content of the table, in whatever order the rows were
    inserted, the result of [getAllMenuItems] and the result of every
    filter query are sorted by [name], ascending: each row's name is at
    most the name of every later row. *)
Theorem results_sorted_by_name :
  forall database : Database,
    StronglySorted name_le (getAllMenuItems database) /\
    forall searchText categories,
      StronglySorted name_le
        (filterBySearchAndCategories database searchText categories).
Proof.
  intros database. split; [|intros searchText categories];
    apply order_by_name_sorted.
Qed.

(** C7.  The search text is trimmed before it is matched.  The query
    run for [searchText] has the condition [name LIKE '%t%'] with [t] the
    trimmed text when [t] is not empty, and no condition on the name
    otherwise: a row is returned exactly when it is in the table, its
    name matches that pattern (or [t] is empty) and its category is
    selected (or none is).  [t] is [searchText] without the white space
    at its two ends; the query is the one run for [t]; and a text of
    white space only gives the result of the empty text. *)
Theorem filter_trims_searchText :
  forall (database : Database) (searchText : string) (categories : list string),
    filterBySearchAndCategories database searchText categories
    = select_menu database
        ((if JSString.truthy (JSString.trim searchText)
          then [NameLike ("%" +:+ JSString.trim searchText +:+ "%")] else [])
           ++ (if 0 <? List.length categories then [CategoryIn categories] else [])) /\
    (forall row,
        row ∈ filterBySearchAndCategories database searchText categories <->
        row ∈ menu database /\
        (JSString.trim searchText = ""
         \/ like (name row) ("%" +:+ JSString.trim searchText +:+ "%") = true) /\
        (categories = [] \/ exists c, category row = Some c /\ c ∈ categories)) /\
    filterBySearchAndCategories database searchText categories
    = filterBySearchAndCategories database (JSString.trim searchText) categories /\
    (exists pre post,
        JSString.chars searchText
        = pre ++ JSString.chars (JSString.trim searchText) ++ post /\
        Forall (fun c => JSString.is_whitespace c = true) pre /\
        Forall (fun c => JSString.is_whitespace c = true) post /\
        (forall c, head (JSString.chars (JSString.trim searchText)) = Some c ->
                   JSString.is_whitespace c = false) /\
        (forall c, last (JSString.chars (JSString.trim searchText)) = Some c ->
                   JSString.is_whitespace c = false)) /\
    (forallb JSString.is_whitespace (JSString.chars searchText) = true ->
     filterBySearchAndCategories database searchText categories
     = filterBySearchAndCategories database "" categories).
Proof.
  intros database searchText categories. split; [|split; [|split; [|split]]].
  - unfold filterBySearchAndCategories. by rewrite searchText_condition.
  - intros row. apply elem_of_filterBySearchAndCategories.
  - apply filterBySearchAndCategories_trim.
  - destruct (trim_split searchText) as [pre [post [E [Hpre Hpost]]]].
    exists pre, post. repeat split; try done.
    + apply trim_head.
    + apply trim_last.
  - intros Hblank. rewrite filterBySearchAndCategories_trim.
    rewrite trim_blank; [done|]. apply Forall_forall.
    intros c Hc. rewrite forallb_forall in Hblank. apply Hblank.
    by apply list_elem_of_In.
Qed.

Lemma filter_trims_searchText_witness :
  forallb JSString.is_whitespace (JSString.chars "  ") = true /\
  filterBySearchAndCategories Samples.threeRows "  " ["Main"]
  = filterBySearchAndCategories Samples.threeRows "" ["Main"] /\
  name <$> filterBySearchAndCategories Samples.threeRows "  " ["Main"]
  = ["Greek Salad"; "Lemon Cake"].
Proof.
  split; [by vm_compute|].
  assert (filterBySearchAndCategories Samples.threeRows "  " ["Main"]
          = filterBySearchAndCategories Samples.threeRows "" ["Main"]) as E.
  { apply (filter_trims_searchText Samples.threeRows "  " ["Main"]).
    by vm_compute. }
  split; [exact E|]. rewrite E. by vm_compute.
Defined.

End query_facts.

(** ** Populating the table *)

Section population_facts.
Import SQLite DatabaseOperations.

Lemma or_default_spec value fallback :
  or_default value fallback
  = match value with
    | Some v => if decide (v = "") then fallback else v
    | None => fallback
    end.
Proof. by destruct value as [[|c v]|]. Qed.

Lemma foldr_max_ge (s : Z) (l : list Z) :
  (s <= foldr Z.max s l)%Z /\ Forall (fun x => (x <= foldr Z.max s l)%Z) l.
Proof.
  induction l as [|x l [IH1 IH2]]; simpl; [split; [lia | constructor]|].
  split; [lia|]. constructor; [lia|].
  eapply Forall_impl; [exact IH2|]. simpl. intros y Hy. lia.
Qed.

Lemma foldr_max_id (s : Z) (l : list Z) :
  Forall (fun x => (x <= s)%Z) l -> foldr Z.max s l = s.
Proof. induction 1 as [|x l Hx _ IH]; simpl; [done|]. rewrite IH. lia. Qed.

(** After an insertion the next rowid is one more. *)
Lemma next_rowid_insert database n p d i c database' :
  insert_menu database (Some n) (Some p) d i c = Some database' ->
  next_rowid database' = (next_rowid database + 1)%Z.
Proof.
  intros [= <-]. unfold next_rowid at 1. simpl.
  rewrite foldr_max_id; [done|].
  rewrite fmap_app, Forall_app. split; [|by repeat constructor].
  destruct (foldr_max_ge (sequence database) (id <$> menu database)) as [_ H].
  eapply Forall_impl; [exact H|]. unfold next_rowid. simpl. intros y Hy. lia.
Qed.

(** Rows are only ever appended, and a table that is empty afterwards
    was not touched. *)
Lemma saveMenuItems_appends database menuItems :
  exists rows,
    menu (saveMenuItems database menuItems).1 = menu database ++ rows /\
    (rows = [] -> (saveMenuItems database menuItems).1 = database).
Proof.
  revert database. induction menuItems as [|item rest IH]; intros database; simpl.
  - exists []. by rewrite app_nil_r.
  - destruct (insert_menu _ _ _ _ _ _) as [database'|] eqn:E.
    + destruct (IH database') as [rows [E1 _]].
      unfold insert_menu in E.
      destruct (item_name item) as [n|]; [|done].
      destruct (item_price item) as [p|]; [|done].
      injection E as <-. simpl in E1. rewrite <- app_assoc in E1.
      eexists. split; [exact E1|]. done.
    + exists []. by rewrite app_nil_r.
Qed.

Lemma next_rowid_fresh database :
  Forall (fun old => (id old < next_rowid database)%Z) (menu database).
Proof.
  destruct (foldr_max_ge (sequence database) (id <$> menu database)) as [_ H].
  rewrite Forall_fmap in H. eapply Forall_impl; [exact H|].
  unfold next_rowid. simpl. intros row Hrow. lia.
Qed.

(** What [saveMenuItems] does with items that all carry a name and a
    price: it resolves, and appends one row per item, in order, numbered
    from the next rowid on. *)
Lemma saveMenuItems_complete database menuItems :
  Forall (fun item => is_Some (item_name item) /\ is_Some (item_price item))
         menuItems ->
  exists rows,
    (saveMenuItems database menuItems).2 = Resolved /\
    menu (saveMenuItems database menuItems).1 = menu database ++ rows /\
    Forall2 (fun item row =>
               item_name item = Some (name row) /\
               item_price item = Some (price row) /\
               description row = item_description item /\
               image row = item_image item /\
               category row = Some (or_default (item_category item) "Main"))
            menuItems rows /\
    (forall (i : nat) row,
        rows !! i = Some row -> id row = (next_rowid database + Z.of_nat i)%Z).
Proof.
  intros Hall. revert database.
  induction Hall as [|item rest [[n Hn] [p Hp]] _ IH]; intros database; simpl.
  - exists []. by rewrite app_nil_r.
  - rewrite Hn, Hp.
    destruct (insert_menu database (Some n) (Some p) (item_description item)
                (item_image item) (Some (or_default (item_category item) "Main")))
      as [database'|] eqn:E; [|done].
    pose proof (next_rowid_insert _ _ _ _ _ _ _ E) as Hnext.
    destruct (IH database') as [rows [H1 [H2 [H3 H4]]]].
    injection E as <-. simpl in H2. rewrite <- app_assoc in H2. simpl in H2.
    eexists. split; [exact H1|]. split; [exact H2|]. split.
    + constructor; [|exact H3]. by rewrite Hn, Hp.
    + intros [|i] row; simpl.
      * intros [= <-]. simpl. lia.
      * intros Hrow. rewrite (H4 i row Hrow), Hnext. lia.
Qed.

(** C5, as amended.  Given items that each have a name and a price,
    [saveMenuItems] appends one new row per item, in order, with a fresh
    id and the item's own fields; the stored category is the item's
    category when that is a non-empty text, and "Main" when the item has
    no category or an empty one.  Bootstrapping an absent store from the
    document of Scenario 1 leaves [getAllMenuItems] returning one row, of
    category "Main". *)
Theorem saveMenuItems_inserts_with_default_category :
  forall (database : Database) (menuItems : list MenuItem),
    Forall (fun item => is_Some (item_name item) /\ is_Some (item_price item))
           menuItems ->
    (exists rows,
        (saveMenuItems database menuItems).2 = Resolved /\
        menu (saveMenuItems database menuItems).1 = menu database ++ rows /\
        Forall2 (fun item row =>
                   item_name item = Some (name row) /\
                   item_price item = Some (price row) /\
                   description row = item_description item /\
                   image row = item_image item /\
                   category row =
                     Some match item_category item with
                          | Some c => if decide (c = "") then "Main" else c
                          | None => "Main"
                          end)
                menuItems rows /\
        (forall (i : nat) row,
            rows !! i = Some row ->
            id row = (next_rowid database + Z.of_nat i)%Z) /\
        Forall (fun old => (id old < next_rowid database)%Z) (menu database)) /\
    (exists file row,
        (HomeScreen.initializeDatabase
           (HomeScreen.Document (Some [Samples.greekSalad])) None
           HomeScreen.initial).1 = Some file /\
        getAllMenuItems file = [row] /\
        name row = "Greek Salad" /\
        category row = Some "Main").
Proof.
  intros database menuItems Hall. split.
  - destruct (saveMenuItems_complete database menuItems Hall)
      as [rows [H1 [H2 [H3 H4]]]].
    exists rows. repeat (split; [done|]). split; [|split; [done|]].
    + eapply Forall2_impl; [exact H3|]. simpl.
      intros item row (? & ? & ? & ? & ->). by rewrite or_default_spec.
    + apply next_rowid_fresh.
  - eexists _, _. split; [by vm_compute|]. by vm_compute.
Qed.

(** C5 as stated fails: an item that does give a category, the empty
    text, is stored with category "Main" all the same. *)
Lemma saveMenuItems_empty_category_stored_as_Main :
  item_category Samples.untagged <> None /\
  category <$> menu (saveMenuItems empty [Samples.untagged]).1 = [Some "Main"].
Proof. split; [done | by vm_compute]. Qed.

Lemma saveMenuItems_inserts_with_default_category_witness :
  Forall (fun item => is_Some (item_name item) /\ is_Some (item_price item))
         [Samples.lemonDessert; Samples.greekSalad; Samples.untagged] /\
  exists rows,
    (saveMenuItems empty
       [Samples.lemonDessert; Samples.greekSalad; Samples.untagged]).2 = Resolved /\
    menu (saveMenuItems empty
            [Samples.lemonDessert; Samples.greekSalad; Samples.untagged]).1
    = menu empty ++ rows /\
    length rows = 3.
Proof.
  assert (Forall (fun item => is_Some (item_name item) /\ is_Some (item_price item))
            [Samples.lemonDessert; Samples.greekSalad; Samples.untagged]) as Hall.
  { repeat constructor; simpl; eauto. }
  split; [exact Hall|].
  destruct (saveMenuItems_inserts_with_default_category empty _ Hall)
    as [[rows (H1 & H2 & H3 & _)] _].
  exists rows. split; [exact H1|]. split; [exact H2|].
  symmetry. exact (Forall2_length _ _ _ H3).
Defined.

End population_facts.

(** ** The population protocol *)

Section protocol_facts.
Import SQLite DatabaseOperations HomeScreen.

Lemma getAllMenuItems_perm database : getAllMenuItems database ≡ₚ menu database.
Proof.
  unfold getAllMenuItems, select_menu. rewrite order_by_name_perm.
  simpl. by rewrite (filter_all (fun _ => true)) by by apply Forall_true.
Qed.

Lemma getAllMenuItems_length database :
  length (getAllMenuItems database) = length (menu database).
Proof. by rewrite getAllMenuItems_perm. Qed.

(** Nothing is fetched or inserted for a table that has rows. *)
Lemma loadMenuData_nonempty remote database st :
  menu database <> [] -> (loadMenuData remote database st).1 = database.
Proof.
  intros Hrows. unfold loadMenuData.
  destruct (0 <? length (getAllMenuItems database)) eqn:E; [done|].
  apply Nat.ltb_ge in E. rewrite getAllMenuItems_length in E.
  destruct (menu database); [done | simpl in E; lia].
Qed.

Lemma fetchAndStoreMenuData_database remote database st :
  (fetchAndStoreMenuData remote database st).1
  = match remote with
    | Document (Some menu_) => (saveMenuItems database menu_).1
    | _ => database
    end.
Proof.
  destruct remote as [|[menu_|]]; simpl; [done| |done].
  by destruct (saveMenuItems database menu_) as [database' []].
Qed.

Lemma loadMenuData_database remote database st :
  (loadMenuData remote database st).1
  = if 0 <? length (getAllMenuItems database) then database
    else (fetchAndStoreMenuData remote database st).1.
Proof.
  unfold loadMenuData.
  destruct (0 <? length (getAllMenuItems database)); [done|].
  by destruct (fetchAndStoreMenuData remote database st).
Qed.

(** Rows are never removed. *)
Lemma loadMenuData_appends remote database st :
  exists rows,
    menu (loadMenuData remote database st).1 = menu database ++ rows /\
    (rows = [] -> (loadMenuData remote database st).1 = database).
Proof.
  rewrite loadMenuData_database.
  destruct (0 <? length (getAllMenuItems database)).
  - exists []. by rewrite app_nil_r.
  - rewrite fetchAndStoreMenuData_database.
    destruct remote as [|[menu_|]]; [|apply saveMenuItems_appends|];
      exists []; by rewrite app_nil_r.
Qed.

(** One run of the protocol leaves a table that a further run, given the
    same answer of the remote source, does not change. *)
Lemma loadMenuData_twice remote database st st' :
  (loadMenuData remote (loadMenuData remote database st).1 st').1
  = (loadMenuData remote database st).1.
Proof.
  destruct (loadMenuData_appends remote database st) as [rows [E Hsame]].
  destruct (decide (menu (loadMenuData remote database st).1 = [])) as [Hnil|Hne];
    [|by apply loadMenuData_nonempty].
  rewrite Hnil in E. symmetry in E. apply app_eq_nil in E as [Hdb ->].
  rewrite (Hsame eq_refl). rewrite (Hsame eq_refl) in Hnil.
  rewrite !loadMenuData_database, !fetchAndStoreMenuData_database.
  pose proof (Hsame eq_refl) as Hfix.
  rewrite loadMenuData_database, fetchAndStoreMenuData_database in Hfix.
  by rewrite Hfix.
Qed.

Lemma initializeDatabase_file remote file st :
  (HomeScreen.initializeDatabase remote file st).1
  = Some (loadMenuData remote (create_table_if_not_exists file) (setDb st)).1.
Proof.
  unfold HomeScreen.initializeDatabase, DatabaseOperations.initializeDatabase.
  by destruct (loadMenuData _ _ _).
Qed.

(** C6, as amended.  Two runs of the initialize-and-populate protocol in
    a row, the remote source answering the same both times, leave the
    same table and so the same number of rows; the table is populated
    only when [getAllMenuItems] comes back empty, and a table that has
    rows is left as it is by a further run, whatever the remote source
    answers. *)
Theorem initializeDatabase_twice_same_rows :
  forall (remote : Fetched) (file : Storage) (st st' : State),
    let file1 := (HomeScreen.initializeDatabase remote file st).1 in
    let file2 := (HomeScreen.initializeDatabase remote file1 st').1 in
    file2 = file1 /\
    row_count file2 = row_count file1 /\
    (forall remote' database st0,
        getAllMenuItems database <> [] ->
        (loadMenuData remote' database st0).1 = database) /\
    (forall remote',
        row_count file1 <> 0 ->
        (HomeScreen.initializeDatabase remote' file1 st').1 = file1).
Proof.
  intros remote file st st'. simpl.
  assert ((HomeScreen.initializeDatabase remote
             (HomeScreen.initializeDatabase remote file st).1 st').1
          = (HomeScreen.initializeDatabase remote file st).1) as Hsame.
  { rewrite !initializeDatabase_file. simpl. by rewrite loadMenuData_twice. }
  split; [exact Hsame|]. split; [by rewrite Hsame|]. split.
  - intros remote' database st0 Hrows. apply loadMenuData_nonempty.
    intros Hnil. apply Hrows. apply Permutation_nil_r.
    by rewrite getAllMenuItems_perm, Hnil.
  - intros remote'. rewrite !initializeDatabase_file. simpl. intros Hcount.
    f_equal. apply loadMenuData_nonempty. intros Hnil. by rewrite Hnil in Hcount.
Qed.

(** C6 as stated fails: a first run whose fetch fails leaves the table
    empty, so that a second run, with nothing written in between, fetches
    again; when that fetch succeeds the numbers of rows after the two
    runs differ. *)
Lemma initializeDatabase_twice_row_counts_differ :
  row_count (HomeScreen.initializeDatabase FetchFailed None initial).1 = 0 /\
  row_count
    (HomeScreen.initializeDatabase
       (Document (Some [Samples.greekSalad; Samples.lemonDessert]))
       (HomeScreen.initializeDatabase FetchFailed None initial).1 initial).1 = 2.
Proof. split; by vm_compute. Qed.

Lemma initializeDatabase_twice_same_rows_witness :
  row_count Samples.bootstrapped <> 0 /\
  (HomeScreen.initializeDatabase
     (Document (Some [Samples.lemonDessert])) Samples.bootstrapped initial).1
  = Samples.bootstrapped.
Proof.
  assert (row_count Samples.bootstrapped <> 0) as Hrows by by vm_compute.
  split; [exact Hrows|].
  apply (initializeDatabase_twice_same_rows
           (Document (Some [Samples.greekSalad])) None initial initial).
  exact Hrows.
Defined.

End protocol_facts.

(** ** Category selection *)

Section toggle_facts.
Import SQLite DatabaseOperations HomeScreen.









End toggle_facts.

(** ** The user view *)

Section user_view_facts.
Import HomeScreen.

Lemma present_nonempty (text : string) : text <> "" -> present (Some text) = Some text.
Proof. by destruct text. Qed.

(** C9.  When both records are there and parse, the user view is the
    merge of the two parsed records: a key of [profileSettings] has the
    value [profileSettings] gives it, any other key the value [userData]
    gives it; so for a key of both the value of [profileSettings] is the
    one kept. *)
Theorem loadUserData_profileSettings_take_precedence :
  forall (JSON_parse : string -> option JSON.Value)
         (asyncStorage : gmap string string) (st : State)
         (userText settingsText : string)
         (parsedUserData parsedSettings : JSON.Value),
    asyncStorage !! "userData" = Some userText ->
    userText <> "" ->
    asyncStorage !! "profileSettings" = Some settingsText ->
    settingsText <> "" ->
    JSON_parse userText = Some parsedUserData ->
    JSON_parse settingsText = Some parsedSettings ->
    exists view : gmap string JSON.Value,
      userData (loadUserData JSON_parse asyncStorage st) = Some view /\
      (forall key,
          view !! key
          = match JSON.spread parsedSettings !! key with
            | Some v => Some v
            | None => JSON.spread parsedUserData !! key
            end) /\
      (forall key v1 v2,
          JSON.spread parsedUserData !! key = Some v1 ->
          JSON.spread parsedSettings !! key = Some v2 ->
          view !! key = Some v2).
Proof.
  intros JSON_parse asyncStorage st userText settingsText parsedUserData
    parsedSettings Huser Hu Hsettings Hs Hpu Hps.
  exists (JSON.spread parsedSettings ∪ JSON.spread parsedUserData).
  assert (forall key,
             (JSON.spread parsedSettings ∪ JSON.spread parsedUserData) !! key
             = match JSON.spread parsedSettings !! key with
               | Some v => Some v
               | None => JSON.spread parsedUserData !! key
               end) as Hlookup.
  { intros key. rewrite lookup_union.
    by destruct (JSON.spread parsedSettings !! key),
                (JSON.spread parsedUserData !! key). }
  split; [|split].
  - unfold loadUserData.
    rewrite Huser, Hsettings, !present_nonempty by done.
    by rewrite Hpu, Hps.
  - exact Hlookup.
  - intros key v1 v2 _ H2. by rewrite Hlookup, H2.
Qed.

Lemma loadUserData_profileSettings_take_precedence_witness :
  exists view : gmap string JSON.Value,
    userData (loadUserData Samples.parse Samples.asyncStorage initial) = Some view /\
    view !! "phoneNumber" = Some (JSON.Str "(555) 123-4567") /\
    view !! "firstName" = Some (JSON.Str "Ada").
Proof.
  destruct (loadUserData_profileSettings_take_precedence
              Samples.parse Samples.asyncStorage initial
              Samples.userDataText Samples.profileSettingsText
              (JSON.Object [("firstName", JSON.Str "Ada"); ("phoneNumber", JSON.Str "")])
              (JSON.Object [("phoneNumber", JSON.Str "(555) 123-4567");
                            ("avatar", JSON.Null)]))
    as [view [Hview [Hlookup _]]].
  - by vm_compute.
  - by vm_compute.
  - by vm_compute.
  - by vm_compute.
  - by vm_compute.
  - by vm_compute.
  - exists view. split; [exact Hview|]. rewrite !Hlookup. by vm_compute.
Defined.

End user_view_facts.

(** * Further properties of the code *)

(** ** The menu table: categories, insertion, loading *)

Section store_facts.
Import SQLite DatabaseOperations HomeScreen.
#[local] Existing Instance name_le_total.
#[local] Existing Instance name_le_transitive.

#[local] Instance category_le_total : Total category_le.
Proof.
  intros [s1|] [s2|]; simpl; auto. apply (total String.le).
Qed.

#[local] Instance category_le_transitive : Transitive category_le.
Proof.
  intros [s1|] [s2|] [s3|]; simpl; try done. apply (transitivity (R := String.le)).
Qed.

(** X1.  [getCategories] returns every category some row has, NULL
    included, each once, in ascending order with NULL first. *)
Theorem getCategories_distinct_sorted_complete :
  forall database : Database,
    NoDup (getCategories database) /\
    StronglySorted category_le (getCategories database) /\
    forall c : option string,
      c ∈ getCategories database <->
      exists row, row ∈ menu database /\ category row = c.
Proof.
  intros database. unfold getCategories, select_distinct_category.
  split; [|split].
  - rewrite merge_sort_Permutation. apply NoDup_remove_dups.
  - apply StronglySorted_merge_sort; apply _.
  - intros c. rewrite merge_sort_Permutation, elem_of_remove_dups, list_elem_of_fmap.
    split; intros [row [H1 H2]]; exists row; by split.
Qed.

Lemma elem_of_filterByCategories database categories row :
  row ∈ filterByCategories database categories <->
  row ∈ menu database /\
  (categories = [] \/ exists c, category row = Some c /\ c ∈ categories).
Proof.
  unfold filterByCategories. destruct categories as [|c0 cs]; simpl.
  - rewrite getAllMenuItems_perm. intuition auto.
  - rewrite elem_of_select_menu. cbn -[in_list]. rewrite andb_true_r, in_list_spec.
    intuition auto; done.
Qed.

(** X2.  For a selection that is not empty, [filterByCategories] returns
    the rows whose category is selected, never a row without category;
    selecting more categories loses no row; and the empty selection
    returns every row, so that it contains every other result. *)
Theorem filterByCategories_widens :
  forall (database : Database) (categories categories' : list string),
    categories <> [] ->
    categories ⊆ categories' ->
    (forall row,
        row ∈ filterByCategories database categories <->
        row ∈ menu database /\ exists c, category row = Some c /\ c ∈ categories) /\
    filterByCategories database categories
      ⊆+ filterByCategories database categories' /\
    filterByCategories database categories'
      ⊆+ filterByCategories database [] /\
    filterByCategories database [] = getAllMenuItems database.
Proof.
  intros database categories categories' Hne Hsub.
  assert (categories' <> []) as Hne'.
  { destruct categories as [|c cs]; [done|]. intros ->.
    destruct (not_elem_of_nil c). apply Hsub. apply elem_of_cons. by left. }
  split; [|split; [|split]].
  - intros row. rewrite elem_of_filterByCategories. intuition auto; done.
  - unfold filterByCategories.
    destruct categories as [|c cs]; [done|].
    destruct categories' as [|c' cs']; [done|]. simpl.
    unfold select_menu. rewrite !order_by_name_perm.
    apply sublist_submseteq, filter_sublist. intros row. cbn -[in_list].
    rewrite !andb_true_r, !in_list_spec. intros [x [Hx Hin]]. exists x. auto.
  - unfold filterByCategories.
    destruct categories' as [|c' cs']; [done|]. simpl.
    unfold getAllMenuItems. apply (select_menu_app database [CategoryIn (c' :: cs')] []).
  - done.
Qed.

Lemma filterByCategories_widens_witness :
  ["Desserts"] <> [] /\
  (["Desserts"] : list string) ⊆ ["Main"; "Desserts"] /\
  filterByCategories Samples.threeRows ["Desserts"]
    ⊆+ filterByCategories Samples.threeRows ["Main"; "Desserts"].
Proof.
  assert ((["Desserts"] : list string) ⊆ ["Main"; "Desserts"]) as Hsub.
  { intros c Hc. apply elem_of_cons. right. exact Hc. }
  split; [done|]. split; [exact Hsub|].
  apply (filterByCategories_widens Samples.threeRows ["Desserts"] ["Main"; "Desserts"]);
    [done | exact Hsub].
Defined.

Lemma saveMenuItems_app database items1 items2 :
  saveMenuItems database (items1 ++ items2)
  = match saveMenuItems database items1 with
    | (database', Resolved) => saveMenuItems database' items2
    | (database', Rejected) => (database', Rejected)
    end.
Proof.
  revert database. induction items1 as [|item rest IH]; intros database; simpl; [done|].
  by destruct (insert_menu _ _ _ _ _ _).
Qed.

(** A call is rejected at an item without name or price, with the
    table as the items before it left it. *)
Lemma saveMenuItems_rejected_at (database : Database) (before : list MenuItem)
    (item : MenuItem) (after : list MenuItem) :
  (saveMenuItems database before).2 = Resolved ->
  item_name item = None \/ item_price item = None ->
  saveMenuItems database (before ++ item :: after)
  = ((saveMenuItems database before).1, Rejected).
Proof.
  intros Hdone Hitem. rewrite saveMenuItems_app.
  destruct (saveMenuItems database before) as [database' c]. simpl in *.
  subst c. unfold insert_menu.
  destruct Hitem as [-> | ->]; [done|]. by destruct (item_name item).
Qed.

(** X3.  [saveMenuItems] stops at the first item that lacks a name or a
    price: the items before it are stored, that item and all the items
    after it are not, and the call is rejected. *)
Theorem saveMenuItems_stops_at_first_incomplete_item :
  forall (database : Database) (before : list MenuItem) (item : MenuItem)
         (after : list MenuItem),
    Forall (fun i => is_Some (item_name i) /\ is_Some (item_price i)) before ->
    item_name item = None \/ item_price item = None ->
    saveMenuItems database (before ++ item :: after)
    = ((saveMenuItems database before).1, Rejected) /\
    length (menu (saveMenuItems database (before ++ item :: after)).1)
    = length (menu database) + length before.
Proof.
  intros database before item after Hbefore Hitem.
  destruct (saveMenuItems_complete database before Hbefore)
    as [rows (H1 & H2 & H3 & _)].
  pose proof (saveMenuItems_rejected_at database before item after H1 Hitem) as E.
  split; [exact E|]. rewrite E. simpl. rewrite H2, length_app.
  by rewrite (Forall2_length _ _ _ H3).
Qed.

Lemma saveMenuItems_stops_at_first_incomplete_item_witness :
  Forall (fun i => is_Some (item_name i) /\ is_Some (item_price i))
         [Samples.greekSalad] /\
  length (menu (saveMenuItems empty
                  ([Samples.greekSalad]
                     ++ {| item_name := None; item_price := Some (1 # 1)%Q;
                           item_description := None; item_image := None;
                           item_category := None |}
                     :: [Samples.lemonDessert])).1)
  = length (menu empty) + length [Samples.greekSalad].
Proof.
  assert (Forall (fun i => is_Some (item_name i) /\ is_Some (item_price i))
            [Samples.greekSalad]) as Hall.
  { repeat constructor; simpl; eauto. }
  split; [exact Hall|].
  apply (saveMenuItems_stops_at_first_incomplete_item empty [Samples.greekSalad]);
    [exact Hall | by left].
Defined.

Lemma insert_menu_NoDup database n p d i c database' :
  insert_menu database n p d i c = Some database' ->
  NoDup (id <$> menu database) -> NoDup (id <$> menu database').
Proof.
  unfold insert_menu. destruct n as [n|]; [|done]. destruct p as [p|]; [|done].
  intros [= <-] Hnodup. simpl. rewrite fmap_app. apply NoDup_app.
  split; [exact Hnodup|]. split; [|apply NoDup_singleton].
  intros x Hx. simpl. rewrite list_elem_of_singleton. intros ->.
  apply list_elem_of_fmap in Hx as [row [Hid Hrow]].
  pose proof (next_rowid_fresh database) as Hfresh.
  rewrite Forall_forall in Hfresh. specialize (Hfresh row Hrow). lia.
Qed.

(** X4.  Whatever the items, and whether the call resolves or is
    rejected on the way, [saveMenuItems] keeps the ids of the table
    pairwise distinct. *)
Theorem saveMenuItems_keeps_ids_distinct :
  forall (database : Database) (menuItems : list MenuItem),
    NoDup (id <$> menu database) ->
    NoDup (id <$> menu (saveMenuItems database menuItems).1).
Proof.
  intros database menuItems. revert database.
  induction menuItems as [|item rest IH]; intros database Hnodup; simpl; [done|].
  destruct (insert_menu _ _ _ _ _ _) as [database'|] eqn:E; [|done].
  apply IH. by eapply insert_menu_NoDup.
Qed.

Lemma saveMenuItems_keeps_ids_distinct_witness :
  NoDup (id <$> menu Samples.threeRows) /\
  NoDup (id <$> menu (saveMenuItems Samples.threeRows
                        [Samples.greekSalad; Samples.untagged]).1).
Proof.
  assert (NoDup (id <$> menu Samples.threeRows)) as H.
  { apply (saveMenuItems_keeps_ids_distinct empty). constructor. }
  split; [exact H|]. by apply saveMenuItems_keeps_ids_distinct.
Defined.

Lemma stored_rows_same_content (menuItems : list MenuItem) (rows1 rows2 : list MenuRow) :
  Forall2 (fun item row =>
             item_name item = Some (name row) /\
             item_price item = Some (price row) /\
             description row = item_description item /\
             image row = item_image item /\
             category row = Some (or_default (item_category item) "Main"))
          menuItems rows1 ->
  Forall2 (fun item row =>
             item_name item = Some (name row) /\
             item_price item = Some (price row) /\
             description row = item_description item /\
             image row = item_image item /\
             category row = Some (or_default (item_category item) "Main"))
          menuItems rows2 ->
  (fun row => (name row, price row, description row, image row, category row))
    <$> rows1
  = (fun row => (name row, price row, description row, image row, category row))
    <$> rows2.
Proof.
  intros H1. revert rows2.
  induction H1 as [|item row1 rest rows1 (Hn & Hp & Hd & Hi & Hc) _ IH];
    intros rows2 H2; inversion H2 as [|? row2 ? rows2' (Hn' & Hp' & Hd' & Hi' & Hc') Hrest];
    subst; [done|].
  rewrite !fmap_cons, (IH rows2' Hrest). f_equal.
  rewrite Hd, Hi, Hc, Hd', Hi', Hc'. congruence.
Qed.

(** X5.  [saveMenuItems] is not idempotent: saving the same items, each
    with a name and a price, a second time appends a second copy of
    every row, the same but for its id. *)
Theorem saveMenuItems_twice_duplicates :
  forall (database : Database) (menuItems : list MenuItem),
    Forall (fun item => is_Some (item_name item) /\ is_Some (item_price item))
           menuItems ->
    exists rows1 rows2,
      menu (saveMenuItems (saveMenuItems database menuItems).1 menuItems).1
      = menu database ++ rows1 ++ rows2 /\
      length rows1 = length menuItems /\
      (fun row => (name row, price row, description row, image row, category row))
        <$> rows1
      = (fun row => (name row, price row, description row, image row, category row))
        <$> rows2 /\
      Forall (fun row2 => Forall (fun row1 => (id row1 < id row2)%Z) rows1) rows2.
Proof.
  intros database menuItems Hall.
  destruct (saveMenuItems_complete database menuItems Hall)
    as [rows1 (_ & E1 & Hrows1 & Hid1)].
  destruct (saveMenuItems_complete (saveMenuItems database menuItems).1 menuItems Hall)
    as [rows2 (_ & E2 & Hrows2 & Hid2)].
  exists rows1, rows2. split; [by rewrite E2, E1, app_assoc|].
  split; [symmetry; exact (Forall2_length _ _ _ Hrows1)|].
  split; [by eapply stored_rows_same_content|].
  pose proof (next_rowid_fresh (saveMenuItems database menuItems).1) as Hfresh.
  rewrite E1, Forall_app in Hfresh. destruct Hfresh as [_ Hfresh].
  apply Forall_forall. intros row2 Hrow2.
  apply list_elem_of_lookup in Hrow2 as [i Hi]. rewrite (Hid2 i row2 Hi).
  eapply Forall_impl; [exact Hfresh|]. simpl. intros row1 Hlt. lia.
Qed.

Lemma saveMenuItems_twice_duplicates_witness :
  Forall (fun item => is_Some (item_name item) /\ is_Some (item_price item))
         [Samples.greekSalad] /\
  exists rows1 rows2,
    menu (saveMenuItems (saveMenuItems empty [Samples.greekSalad]).1
            [Samples.greekSalad]).1
    = menu empty ++ rows1 ++ rows2 /\
    length rows1 = 1.
Proof.
  assert (Forall (fun item => is_Some (item_name item) /\ is_Some (item_price item))
            [Samples.greekSalad]) as Hall.
  { repeat constructor; simpl; eauto. }
  split; [exact Hall|].
  destruct (saveMenuItems_twice_duplicates empty [Samples.greekSalad] Hall)
    as [rows1 [rows2 (E & Hlen & _)]].
  exists rows1, rows2. split; [exact E | exact Hlen].
Defined.

(** X6.  [loadMenuData] always ends with [loading] off.  It either
    leaves the two item lists as they were or sets both to the content of
    the table it leaves; it never changes the selection, the search text
    or the user view.  When the table is empty and the fetch fails, the
    table stays empty, the lists stay as they were and one alert is
    raised. *)
Theorem loadMenuData_outcome :
  forall (remote : Fetched) (database : Database) (st : State),
    let database' := (loadMenuData remote database st).1 in
    let st' := (loadMenuData remote database st).2 in
    loading st' = false /\
    ((menuItems st' = menuItems st /\ filteredMenuItems st' = filteredMenuItems st) \/
     (menuItems st' = getAllMenuItems database' /\
      filteredMenuItems st' = getAllMenuItems database')) /\
    selectedCategories st' = selectedCategories st /\
    debouncedSearchText st' = debouncedSearchText st /\
    userData st' = userData st /\
    (remote = FetchFailed -> menu database = [] ->
     database' = database /\
     menuItems st' = menuItems st /\
     alerts st' = alerts st ++ [fetch_error_message]).
Proof.
  intros remote database st. cbv zeta. unfold loadMenuData.
  destruct (0 <? length (getAllMenuItems database)) eqn:E.
  - simpl. split; [done|]. split; [by right|]. do 3 (split; [done|]).
    intros _ Hnil. apply Nat.ltb_lt in E.
    rewrite getAllMenuItems_length, Hnil in E. simpl in E. lia.
  - destruct remote as [|[menu_|]]; simpl.
    + split; [done|]. split; [by left|]. do 3 (split; [done|]). done.
    + destruct (saveMenuItems database menu_) as [database' []]; simpl.
      * split; [done|]. split; [by right|]. do 3 (split; [done|]). done.
      * split; [done|]. split; [by left|]. do 3 (split; [done|]). done.
    + split; [done|]. split; [by left|]. do 3 (split; [done|]). done.
Qed.

Lemma loadMenuData_outcome_witness :
  (loadMenuData FetchFailed empty initial).1 = empty /\
  menuItems (loadMenuData FetchFailed empty initial).2 = menuItems initial /\
  alerts (loadMenuData FetchFailed empty initial).2
  = alerts initial ++ [fetch_error_message].
Proof.
  apply (loadMenuData_outcome FetchFailed empty initial); reflexivity.
Defined.

(** X7.  A population that is rejected after it stored some rows is never
    resumed: the items from the incomplete one on are not stored, and
    since the table now has rows, no later run fetches or inserts
    anything, whatever the remote source answers. *)
Theorem loadMenuData_partial_population_is_final :
  forall (before : list MenuItem) (item : MenuItem) (after : list MenuItem)
         (remote' : Fetched) (st st' : State),
    before <> [] ->
    Forall (fun i => is_Some (item_name i) /\ is_Some (item_price i)) before ->
    item_name item = None \/ item_price item = None ->
    let database1 :=
      (loadMenuData (Document (Some (before ++ item :: after))) empty st).1 in
    length (menu database1) = length before /\
    alerts (loadMenuData (Document (Some (before ++ item :: after))) empty st).2
    = alerts st ++ [fetch_error_message] /\
    (loadMenuData remote' database1 st').1 = database1.
Proof.
  intros before item after remote' st st' Hne Hbefore Hitem. cbv zeta.
  destruct (saveMenuItems_complete empty before Hbefore)
    as [rows (Hdone & Hrows & Hstored & _)].
  pose proof (saveMenuItems_rejected_at empty before item after Hdone Hitem) as E.
  assert (length (menu (saveMenuItems empty (before ++ item :: after)).1)
          = length (menu empty) + length before) as Hlen.
  { rewrite E. simpl. rewrite Hrows, length_app.
    by rewrite (Forall2_length _ _ _ Hstored). }
  assert (loadMenuData (Document (Some (before ++ item :: after))) empty st
          = ((saveMenuItems empty before).1,
             setLoading false (alert fetch_error_message st))) as Hload.
  { unfold loadMenuData. simpl. by rewrite E. }
  rewrite Hload. simpl. rewrite E in Hlen. simpl in Hlen.
  split; [exact Hlen|]. split; [done|].
  apply loadMenuData_nonempty. intros Hnil. rewrite Hnil in Hlen. simpl in Hlen.
  destruct before; [done | simpl in Hlen; lia].
Qed.

Lemma loadMenuData_partial_population_is_final_witness :
  [Samples.greekSalad] <> [] /\
  length (menu (loadMenuData
                  (Document (Some ([Samples.greekSalad]
                                     ++ {| item_name := None; item_price := None;
                                           item_description := None;
                                           item_image := None;
                                           item_category := None |}
                                     :: [Samples.lemonDessert])))
                  empty initial).1)
  = length [Samples.greekSalad].
Proof.
  split; [done|].
  apply (loadMenuData_partial_population_is_final
           [Samples.greekSalad] _ [Samples.lemonDessert] FetchFailed initial initial).
  - done.
  - repeat constructor; simpl; eauto.
  - by left.
Defined.

End store_facts.

(** ** What a search text matches *)

Section like_facts.
Import SQLite DatabaseOperations.

Lemma like_chars_percent pattern text :
  like_chars ("%"%char :: pattern) text = true <->
  exists pre post, text = pre ++ post /\ like_chars pattern post = true.
Proof.
  induction text as [|c text IH].
  - simpl. rewrite orb_false_r. split.
    + intros H. by exists [], [].
    + intros (pre & post & E & H). symmetry in E.
      apply app_eq_nil in E as [_ ->]. exact H.
  - change (like_chars ("%"%char :: pattern) (c :: text))
      with (like_chars pattern (c :: text) || like_chars ("%"%char :: pattern) text).
    rewrite orb_true_iff, IH. split.
    + intros [H | (pre & post & -> & H)].
      * by exists [], (c :: text).
      * by exists (c :: pre), post.
    + intros ([|d pre] & post & E & H); simpl in E.
      * left. by rewrite E.
      * injection E as -> ->. right. by exists pre, post.
Qed.

Lemma like_chars_literal (literal pattern text : list ascii) :
  Forall (fun c => c <> "%"%char /\ c <> "_"%char) literal ->
  like_chars (literal ++ pattern) text = true <->
  exists mid rest,
    text = mid ++ rest /\ lower <$> mid = lower <$> literal /\
    like_chars pattern rest = true.
Proof.
  intros Hlit. revert text.
  induction Hlit as [|c literal [Hc1 Hc2] _ IH]; intros text.
  - simpl. split.
    + intros H. by exists [], text.
    + intros (mid & rest & -> & Hmid & H).
      apply fmap_nil_inv in Hmid as ->. exact H.
  - simpl. apply Ascii.eqb_neq in Hc1, Hc2. rewrite Hc1, Hc2. simpl.
    destruct text as [|d text].
    + split; [done|]. intros ([|? ?] & rest & E & Hmid & _); done.
    + rewrite andb_true_iff, Ascii.eqb_eq, IH. split.
      * intros [Hcd (mid & rest & -> & Hmid & H)].
        exists (d :: mid), rest. rewrite !fmap_cons, Hmid, Hcd. done.
      * intros ([|d' mid] & rest & E & Hmid & H); [done|].
        simpl in E. injection E as <- ->. rewrite !fmap_cons in Hmid.
        injection Hmid as Hd Hmid. split; [done|]. by exists mid, rest.
Qed.

Lemma like_chars_percent_only text : like_chars ["%"%char] text = true.
Proof. apply like_chars_percent. exists text, []. by rewrite app_nil_r. Qed.

Lemma c_string_id (l : list ascii) :
  Forall (fun c => c <> "000"%char) l -> c_string l = l.
Proof.
  induction 1 as [|c l Hc _ IH]; simpl; [done|].
  apply Ascii.eqb_neq in Hc. by rewrite Hc, IH.
Qed.

(** [name LIKE '%text%'] for a text without wildcard, neither operand
    holding a NUL: some run of characters of the name is the text, up to
    the case of the letters A-Z. *)
Lemma like_contains (value text : string) :
  Forall (fun c => c <> "%"%char /\ c <> "_"%char /\ c <> "000"%char)
         (JSString.chars text) ->
  Forall (fun c => c <> "000"%char) (JSString.chars value) ->
  like value ("%" +:+ text +:+ "%") = true <->
  exists pre mid post,
    JSString.chars value = pre ++ mid ++ post /\
    lower <$> mid = lower <$> JSString.chars text.
Proof.
  intros Htext Hvalue.
  assert (Forall (fun c => c <> "%"%char /\ c <> "_"%char) (JSString.chars text))
    as Hlit.
  { eapply Forall_impl; [exact Htext|]. simpl. tauto. }
  unfold like. rewrite !chars_app.
  change (JSString.chars "%") with ["%"%char].
  rewrite (c_string_id (JSString.chars value)) by done.
  rewrite c_string_id.
  2:{ apply Forall_app. split; [by repeat constructor|].
      apply Forall_app. split; [|by repeat constructor].
      eapply Forall_impl; [exact Htext|]. simpl. tauto. }
  change (["%"%char] ++ JSString.chars text ++ ["%"%char])
    with ("%"%char :: (JSString.chars text ++ ["%"%char])).
  rewrite like_chars_percent. split.
  - intros (pre & post & E & H).
    apply (like_chars_literal _ _ _ Hlit) in H as (mid & rest & -> & Hmid & _).
    by exists pre, mid, rest.
  - intros (pre & mid & post & E & Hmid). exists pre, (mid ++ post). split; [done|].
    apply (like_chars_literal _ _ _ Hlit). exists mid, post.
    split; [done|]. split; [done|]. apply like_chars_percent_only.
Qed.

(** X8.  Take a search text whose trimmed form has no [%], no [_] and no
    NUL and stays below the pattern length the engine accepts, and a
    table whose names hold no NUL.  Then the filter keeps exactly the rows
    whose name contains the trimmed text as a run of consecutive
    characters, the letters A-Z and a-z compared without regard to case
    (and whose category is selected, when categories are). *)
Theorem filter_matches_substring_ignoring_case :
  forall (database : Database) (searchText : string) (categories : list string)
         (row : MenuRow),
    Forall (fun c => c <> "%"%char /\ c <> "_"%char /\ c <> "000"%char)
           (JSString.chars (JSString.trim searchText)) ->
    (2 * Z.of_nat (List.length (JSString.chars (JSString.trim searchText))) + 2
     <= 50000)%Z ->
    Forall (fun r => Forall (fun c => c <> "000"%char) (JSString.chars (name r)))
           (menu database) ->
    row ∈ filterBySearchAndCategories database searchText categories <->
    row ∈ menu database /\
    (exists pre mid post,
        JSString.chars (name row) = pre ++ mid ++ post /\
        lower <$> mid = lower <$> JSString.chars (JSString.trim searchText)) /\
    (categories = [] \/ exists c, category row = Some c /\ c ∈ categories).
Proof.
  intros database searchText categories row Htext _ Hnames.
  rewrite elem_of_filterBySearchAndCategories.
  assert (JSString.trim searchText = "" ->
          exists pre mid post,
            JSString.chars (name row) = pre ++ mid ++ post /\
            lower <$> mid = lower <$> JSString.chars (JSString.trim searchText)) as Hempty.
  { intros ->. exists (JSString.chars (name row)), [], []. by rewrite !app_nil_r. }
  rewrite Forall_forall in Hnames.
  split.
  - intros (Hrow & Hmatch & Hcat). split; [done|]. split; [|done].
    destruct Hmatch as [E | Hlike]; [by apply Hempty|].
    by apply (like_contains _ _ Htext (Hnames row Hrow)).
  - intros (Hrow & Hmatch & Hcat). split; [done|]. split; [|done].
    right. by apply (like_contains _ _ Htext (Hnames row Hrow)).
Qed.

Lemma filter_matches_substring_ignoring_case_witness :
  Forall (fun c => c <> "%"%char /\ c <> "_"%char /\ c <> "000"%char)
         (JSString.chars (JSString.trim " SALAD ")) /\
  (2 * Z.of_nat (List.length (JSString.chars (JSString.trim " SALAD "))) + 2
   <= 50000)%Z /\
  Forall (fun r => Forall (fun c => c <> "000"%char) (JSString.chars (name r)))
         (menu Samples.threeRows) /\
  exists row,
    row ∈ filterBySearchAndCategories Samples.threeRows " SALAD " [] /\
    name row = "Greek Salad".
Proof.
  assert (Forall (fun c => c <> "%"%char /\ c <> "_"%char /\ c <> "000"%char)
            (JSString.chars (JSString.trim " SALAD "))) as Htext.
  { vm_compute. repeat constructor; discriminate. }
  assert ((2 * Z.of_nat (List.length (JSString.chars (JSString.trim " SALAD "))) + 2
           <= 50000)%Z) as Hlen.
  { by vm_compute. }
  assert (Forall (fun r => Forall (fun c => c <> "000"%char) (JSString.chars (name r)))
            (menu Samples.threeRows)) as Hnames.
  { vm_compute. repeat constructor; discriminate. }
  split; [exact Htext|]. split; [exact Hlen|]. split; [exact Hnames|].
  exists {| id := 2; name := "Greek Salad"; price := (1299 # 100)%Q;
            description := Some ""; image := Some "greekSalad.jpg";
            category := Some "Main" |}.
  split; [|done].
  apply (filter_matches_substring_ignoring_case Samples.threeRows " SALAD " [] _
           Htext Hlen Hnames).
  split; [|split].
  - vm_compute. apply elem_of_cons. right. apply elem_of_cons. by left.
  - exists (JSString.chars "Greek "), (JSString.chars "Salad"), []. by vm_compute.
  - by left.
Defined.

Lemma like_chars_all_percent pattern text :
  Forall (fun c => c = "%"%char) pattern ->
  like_chars ("%"%char :: pattern) text = true.
Proof.
  intros Hall. revert text.
  induction Hall as [|c pattern -> _ IH]; intros text.
  - apply like_chars_percent_only.
  - apply like_chars_percent. exists [], text. split; [done | apply IH].
Qed.

(** X9.  The characters of a search text are not escaped: a text made of
    [%] only constrains nothing, and the filter returns what it returns
    for the empty text. *)
Theorem filter_percent_matches_everything :
  forall (database : Database) (searchText : string) (categories : list string),
    Forall (fun c => c = "%"%char) (JSString.chars (JSString.trim searchText)) ->
    filterBySearchAndCategories database searchText categories
    = filterBySearchAndCategories database "" categories.
Proof.
  intros database searchText categories Hall.
  unfold filterBySearchAndCategories. rewrite searchText_condition. simpl.
  destruct (JSString.truthy (JSString.trim searchText)) eqn:Htruthy; [|done].
  unfold select_menu. f_equal. apply List.filter_ext. intros row. simpl.
  assert (like (name row) ("%" +:+ JSString.trim searchText +:+ "%") = true) as ->; [|done].
  unfold like. rewrite !chars_app. change (JSString.chars "%") with ["%"%char].
  rewrite c_string_id.
  2:{ apply Forall_app. split; [by repeat constructor|].
      apply Forall_app. split; [|by repeat constructor].
      eapply Forall_impl; [exact Hall|]. simpl. by intros c ->. }
  change (["%"%char] ++ JSString.chars (JSString.trim searchText) ++ ["%"%char])
    with ("%"%char :: (JSString.chars (JSString.trim searchText) ++ ["%"%char])).
  apply like_chars_all_percent.
  apply Forall_app. split; [exact Hall | by repeat constructor].
Qed.

Lemma filter_percent_matches_everything_witness :
  Forall (fun c => c = "%"%char) (JSString.chars (JSString.trim " % ")) /\
  filterBySearchAndCategories Samples.threeRows " % " []
  = filterBySearchAndCategories Samples.threeRows "" [].
Proof.
  assert (Forall (fun c => c = "%"%char) (JSString.chars (JSString.trim " % ")))
    as Hall.
  { vm_compute. by repeat constructor. }
  split; [exact Hall|].
  by apply filter_percent_matches_everything.
Defined.

End like_facts.

(** ** More on phone numbers *)

Section phone_edit_facts.
Import JSString Profile.

Lemma formatPhoneNumber_empty_iff value :
  formatPhoneNumber value = "" <-> digits value = [].
Proof.
  split.
  - intros E. pose proof (digits_formatPhoneNumber value) as Hd.
    rewrite E in Hd. change (digits "") with (@nil ascii) in Hd.
    destruct (digits value); [done | discriminate].
  - intros E. rewrite (formatPhoneNumber_truncated value ""); [done|].
    by rewrite E.
Qed.

(** X10.  A text typed into the phone field passes the phone check once
    formatted exactly when it holds at least ten digits, whatever else it
    holds; and it is formatted to the empty text exactly when it holds no
    digit. *)
Theorem formatted_phone_valid_iff_ten_digits :
  forall value : string,
    (isValidPhoneNumber (formatPhoneNumber value) = true
     <-> 10 <= List.length (digits value)) /\
    (formatPhoneNumber value = "" <-> digits value = []).
Proof.
  intros value. split; [|apply formatPhoneNumber_empty_iff].
  unfold isValidPhoneNumber, length, replace_non_digits.
  rewrite chars_str. fold (digits (formatPhoneNumber value)).
  rewrite digits_formatPhoneNumber, length_take, Nat.eqb_eq. lia.
Qed.

Lemma filter_removelast {A} (f : A -> bool) (l : list A) (x : A) :
  f x = false ->
  List.filter f (removelast (l ++ [x])) = List.filter f (l ++ [x]).
Proof.
  intros Hx. rewrite removelast_last, List.filter_app. simpl.
  by rewrite Hx, app_nil_r.
Qed.

(** The formatted text ends with a separator when there are exactly
    three or exactly six digits. *)
Lemma formatPhoneNumber_ends_with_separator value :
  List.length (digits value) = 3 \/ List.length (digits value) = 6 ->
  exists body sep,
    chars (formatPhoneNumber value) = body ++ [sep] /\ is_digit sep = false.
Proof.
  intros Hlen. unfold formatPhoneNumber.
  set (t := substring (replace_non_digits value) 0 10).
  assert (Ht : chars t = take 10 (digits value)) by apply chars_truncated.
  assert (Hl : length t = List.length (digits value)).
  { unfold length. rewrite Ht, length_take. lia. }
  destruct Hlen as [H3 | H6]; rewrite Hl.
  - rewrite H3. simpl. rewrite !chars_app, chars_substring_from.
    rewrite (drop_ge (chars t)) by (unfold length in Hl; lia).
    exists (chars "(" ++ chars (substring t 0 3) ++ [")"%char]), " "%char.
    split; [|done]. rewrite app_nil_r, <- !app_assoc. done.
  - rewrite H6. simpl. rewrite !chars_app, chars_substring_from.
    rewrite (drop_ge (chars t)) by (unfold length in Hl; lia).
    exists (chars "(" ++ chars (substring t 0 3) ++ chars ") "
              ++ chars (substring t 3 6)), "-"%char.
    split; [|done]. rewrite app_nil_r, <- !app_assoc. done.
Qed.

(** X11.  When the typed text holds exactly three or exactly six digits,
    the formatted text ends with a separator, and deleting that last
    character formats back to the same text: the separator cannot be
    erased from the end of the field. *)
Theorem formatPhoneNumber_undoes_separator_deletion :
  forall value : string,
    List.length (digits value) = 3 \/ List.length (digits value) = 6 ->
    (exists c, last (chars (formatPhoneNumber value)) = Some c /\ is_digit c = false) /\
    formatPhoneNumber (str (removelast (chars (formatPhoneNumber value))))
    = formatPhoneNumber value.
Proof.
  intros value Hlen.
  destruct (formatPhoneNumber_ends_with_separator value Hlen)
    as (body & sep & E & Hsep).
  split.
  - exists sep. by rewrite E, last_snoc.
  - apply formatPhoneNumber_truncated. f_equal. unfold digits at 1.
    rewrite chars_str, E, filter_removelast by done. rewrite <- E.
    fold (digits (formatPhoneNumber value)).
    rewrite digits_formatPhoneNumber. apply take_ge. lia.
Qed.

Lemma formatPhoneNumber_undoes_separator_deletion_witness :
  (List.length (digits "555123") = 3 \/ List.length (digits "555123") = 6) /\
  formatPhoneNumber (str (removelast (chars (formatPhoneNumber "555123"))))
  = formatPhoneNumber "555123".
Proof.
  assert (List.length (digits "555123") = 3 \/ List.length (digits "555123") = 6)
    as Hlen by (right; reflexivity).
  split; [exact Hlen|].
  by apply formatPhoneNumber_undoes_separator_deletion.
Defined.

End phone_edit_facts.

(** ** Email checks *)

Section email_facts.
Import JSRuntime.

Lemma test_chars_end text : test_chars [] text = true <-> text = [].
Proof. by destruct text. Qed.

Lemma test_chars_char c pattern text :
  test_chars (Char c :: pattern) text = true <->
  exists rest, text = c :: rest /\ test_chars pattern rest = true.
Proof.
  destruct text as [|x text]; simpl.
  - split; [done | by intros (? & ? & _)].
  - rewrite andb_true_iff, Ascii.eqb_eq. split.
    + intros [-> H]. by exists text.
    + intros (rest & [= -> ->] & H). done.
Qed.

Lemma test_chars_one_or_more class pattern text :
  test_chars (OneOrMore class :: pattern) text = true <->
  exists run rest,
    text = run ++ rest /\ run <> [] /\
    Forall (fun c => class c = true) run /\
    test_chars pattern rest = true.
Proof.
  induction text as [|x text IH].
  - simpl. split; [done|].
    intros (run & rest & E & Hne & _). symmetry in E.
    apply app_eq_nil in E as [-> _]. done.
  - change (test_chars (OneOrMore class :: pattern) (x :: text))
      with (class x && (test_chars pattern text
                        || test_chars (OneOrMore class :: pattern) text)).
    rewrite andb_true_iff, orb_true_iff, IH. split.
    + intros [Hx [H | (run & rest & -> & Hne & Hrun & H)]].
      * exists [x], text. repeat split; [done | by repeat constructor | done].
      * exists (x :: run), rest. repeat split; [done | by constructor | done].
    + intros ([|y run] & rest & E & Hne & Hrun & H); [done|].
      simpl in E. injection E as -> ->. apply Forall_cons in Hrun as [Hx Hrun].
      split; [done|]. destruct run as [|z run].
      * by left.
      * right. exists (z :: run), rest. done.
Qed.

(** What the email pattern of the profile editor accepts. *)
Lemma emailRegex_parts :
  forall email : string,
    test ProfileScreen.emailRegex email = true <->
    exists local domain tld : list ascii,
      JSString.chars email = local ++ "@"%char :: domain ++ "."%char :: tld /\
      local <> [] /\ domain <> [] /\ tld <> [] /\
      Forall (fun c => not_space_nor_at c = true) (local ++ domain ++ tld).
Proof.
  intros email. unfold test, ProfileScreen.emailRegex.
  rewrite test_chars_one_or_more. split.
  - intros (local & rest1 & E1 & Hl & Hlocal & H).
    apply test_chars_char in H as (rest2 & -> & H).
    apply test_chars_one_or_more in H as (domain & rest3 & -> & Hd & Hdomain & H).
    apply test_chars_char in H as (rest4 & -> & H).
    apply test_chars_one_or_more in H as (tld & rest5 & -> & Ht & Htld & H).
    apply test_chars_end in H as ->. rewrite app_nil_r in E1.
    exists local, domain, tld. repeat split; try done.
    rewrite !Forall_app. done.
  - intros (local & domain & tld & E & Hl & Hd & Ht & Hall).
    rewrite !Forall_app in Hall. destruct Hall as (Hlocal & Hdomain & Htld).
    exists local, ("@"%char :: domain ++ "."%char :: tld).
    repeat split; try done.
    apply test_chars_char. eexists. split; [done|].
    apply test_chars_one_or_more. exists domain, ("."%char :: tld).
    repeat split; try done.
    apply test_chars_char. eexists. split; [done|].
    apply test_chars_one_or_more. exists tld, []. rewrite app_nil_r.
    repeat split; done.
Qed.

(** X12.  The email pattern of the profile editor accepts exactly the
    texts of the form [local@domain.tld] in which the three parts are not
    empty and hold no white space and no [@]; the parts may hold dots.
    So an accepted email has no white space, exactly one [@] and at
    least five characters. *)
Theorem emailRegex_accepts_local_domain_tld :
  forall email : string,
    (test ProfileScreen.emailRegex email = true <->
     exists local domain tld : list ascii,
       JSString.chars email = local ++ "@"%char :: domain ++ "."%char :: tld /\
       local <> [] /\ domain <> [] /\ tld <> [] /\
       Forall (fun c => not_space_nor_at c = true) (local ++ domain ++ tld)) /\
    (test ProfileScreen.emailRegex email = true ->
     Forall (fun c => JSString.is_whitespace c = false) (JSString.chars email) /\
     List.length (List.filter (Ascii.eqb "@") (JSString.chars email)) = 1 /\
     5 <= List.length (JSString.chars email)).
Proof.
  intros email. split; [apply emailRegex_parts|].
  intros (local & domain & tld & -> & Hl & Hd & Ht & Hall)%emailRegex_parts.
  rewrite !Forall_app in Hall. destruct Hall as (Hlocal & Hdomain & Htld).
  assert (forall l, Forall (fun c => not_space_nor_at c = true) l ->
                    Forall (fun c => JSString.is_whitespace c = false) l /\
                    List.filter (Ascii.eqb "@") l = []) as Hpart.
  { induction 1 as [|c l Hc _ [IH1 IH2]]; [done|].
    unfold not_space_nor_at in Hc.
    apply andb_true_iff in Hc as [Hws Hat]. apply negb_true_iff in Hws, Hat.
    split; [by constructor|]. cbn [List.filter].
    rewrite (Ascii.eqb_sym "@" c), Hat. exact IH2. }
  destruct (Hpart _ Hlocal) as [W1 A1], (Hpart _ Hdomain) as [W2 A2],
    (Hpart _ Htld) as [W3 A3].
  split; [|split].
  - apply Forall_app. split; [done|]. constructor; [done|].
    apply Forall_app. split; [done|]. by constructor.
  - rewrite List.filter_app. simpl. rewrite List.filter_app. simpl.
    by rewrite A1, A2, A3.
  - rewrite length_app. simpl. rewrite length_app. simpl.
    destruct local, domain, tld; simpl; try done; lia.
Qed.

Lemma includes_char (s : string) (c : ascii) :
  includes s (String c EmptyString) = true <-> c ∈ JSString.chars s.
Proof.
  unfold includes. change (JSString.chars (String c EmptyString)) with [c].
  induction (JSString.chars s) as [|d l IH]; simpl.
  - split; [done | by intros ?%elem_of_nil].
  - rewrite andb_true_r, orb_true_iff, Ascii.eqb_eq, IH, elem_of_cons. done.
Qed.

Lemma trim_keeps_visible (s : string) (c : ascii) :
  JSString.is_whitespace c = false ->
  c ∈ JSString.chars s -> c ∈ JSString.chars (JSString.trim s).
Proof.
  intros Hc Hin. destruct (trim_split s) as (pre & post & E & Hpre & Hpost).
  rewrite E, !elem_of_app in Hin. rewrite Forall_forall in Hpre, Hpost.
  destruct Hin as [Hin | [Hin | Hin]]; [|done|].
  - specialize (Hpre c Hin). simpl in Hpre. congruence.
  - specialize (Hpost c Hin). simpl in Hpost. congruence.
Qed.

Lemma trim_nonempty_of_visible (s : string) (c : ascii) :
  JSString.is_whitespace c = false ->
  c ∈ JSString.chars s -> JSString.trim s <> "".
Proof.
  intros Hc Hin E. apply (trim_keeps_visible s c Hc) in Hin.
  rewrite E in Hin. by apply elem_of_nil in Hin.
Qed.

(** X13.  At its email step the onboarding accepts a text exactly when
    it contains [@]; the test on the trimmed text adds nothing.  Every
    email the profile editor accepts is accepted by the onboarding, and
    the text [@] alone is accepted by the onboarding but not by the
    profile editor. *)
Theorem onboarding_email_check_is_weaker :
  forall st : Onboarding.State,
    Onboarding.currentStep st = 2 ->
    (Onboarding.isStepValid st = true
     <-> "@"%char ∈ JSString.chars (Onboarding.email (Onboarding.userData st))) /\
    (test ProfileScreen.emailRegex (Onboarding.email (Onboarding.userData st)) = true ->
     Onboarding.isStepValid st = true) /\
    (Onboarding.isStepValid
       (Onboarding.handleInputChange Onboarding.Email "@" st) = true /\
     test ProfileScreen.emailRegex "@" = false).
Proof.
  intros st Hstep.
  assert (forall st0, Onboarding.currentStep st0 = 2 ->
            (Onboarding.isStepValid st0 = true
             <-> "@"%char ∈ JSString.chars (Onboarding.email (Onboarding.userData st0))))
    as Hiff.
  { intros st0 Hstep0. unfold Onboarding.isStepValid. rewrite Hstep0.
    rewrite andb_true_iff, negb_true_iff, String.eqb_neq.
    rewrite (includes_char _ "@"%char). split; [by intros [_ ?]|].
    intros Hin. split; [|done].
    by apply (trim_nonempty_of_visible _ "@"%char). }
  split; [by apply Hiff|]. split.
  - intros Htest. apply Hiff; [done|].
    apply emailRegex_parts in Htest as (local & domain & tld & -> & _).
    rewrite elem_of_app, elem_of_cons. right. by left.
  - split; [|by vm_compute].
    apply Hiff; [exact Hstep|]. simpl. apply elem_of_cons. by left.
Qed.

Lemma onboarding_email_check_is_weaker_witness :
  Onboarding.currentStep ProfileSamples.atEmailStep = 2 /\
  Onboarding.isStepValid ProfileSamples.atEmailStep = true.
Proof.
  split; [reflexivity|].
  apply (proj1 (onboarding_email_check_is_weaker ProfileSamples.atEmailStep eq_refl)).
  apply (includes_char _ "@"%char). by vm_compute.
Defined.

End email_facts.

(** ** The onboarding wizard *)

Section onboarding_facts.
Import Onboarding.

Local Abbreviation names_ok u :=
  (JSString.trim (firstName u) <> "" /\ JSString.trim (lastName u) <> "").
Local Abbreviation email_ok u := ("@"%char ∈ JSString.chars (email u)).

(** What holds of every state the screen can reach. *)
Local Abbreviation reachable_ok st :=
  (currentStep st <= 3 /\
   (2 <= currentStep st -> names_ok (userData st)) /\
   (3 <= currentStep st -> email_ok (userData st)) /\
   (completions st <> [] -> currentStep st = 3) /\
   Forall (fun u => names_ok u /\ email_ok u) (completions st)).

Lemma isStepValid_names st :
  currentStep st = 1 -> isStepValid st = true -> names_ok (userData st).
Proof.
  intros Hstep. unfold isStepValid. rewrite Hstep.
  rewrite andb_true_iff, !negb_true_iff, !String.eqb_neq. done.
Qed.

Lemma isStepValid_email st :
  currentStep st = 2 -> isStepValid st = true -> email_ok (userData st).
Proof.
  intros Hstep. unfold isStepValid. rewrite Hstep.
  rewrite andb_true_iff. intros [_ H]. by apply (includes_char _ "@"%char).
Qed.

Lemma complete_ok onComplete st :
  currentStep st = 3 -> reachable_ok st -> reachable_ok (complete onComplete st).
Proof.
  intros Hstep (H1 & H2 & H3 & H4 & H5). unfold complete.
  destruct onComplete; [|done]. simpl. rewrite Hstep in *.
  split; [lia|]. split; [exact H2|]. split; [exact H3|]. split; [done|].
  apply Forall_app. split; [done|]. constructor; [|constructor].
  split; [apply H2; lia | apply H3; lia].
Qed.

Lemma dispatch_ok onComplete st e :
  reachable_ok st -> reachable_ok (dispatch onComplete st e).
Proof.
  intros Hok. unfold dispatch.
  destruct (offered st e) eqn:Hoffered; [|done].
  pose proof Hok as (H1 & H2 & H3 & H4 & H5).
  unfold offered in Hoffered.
  destruct (currentStep st) as [|[|[|[|n]]]] eqn:Hstep; [| | | |lia].
  - (* step 0 *)
    destruct e; try done. unfold handleContinue. rewrite Hstep. simpl.
    repeat split; try done; try lia;
      try (intros Hc; specialize (H4 Hc); lia).
  - (* step 1 *)
    destruct e as [[| |] text| |]; try done.
    + simpl. rewrite Hstep. repeat split; try done; lia.
    + simpl. rewrite Hstep. repeat split; try done; lia.
    + pose proof (isStepValid_names st Hstep Hoffered) as [Hf Hl].
      unfold handleContinue. rewrite Hstep. simpl.
      repeat split; try done; try lia;
        try (intros Hc; specialize (H4 Hc); lia).
  - (* step 2 *)
    destruct e as [[| |] text| |]; try done.
    + simpl. rewrite Hstep. repeat split; try done; try lia; apply H2; lia.
    + pose proof (isStepValid_email st Hstep Hoffered) as He.
      unfold handleContinue. rewrite Hstep. simpl.
      repeat split; try done; try (apply H2; lia);
        try (intros Hc; specialize (H4 Hc); lia).
  - (* step 3 *)
    destruct e as [field text| |]; try done.
    + unfold handleContinue. rewrite Hstep. simpl.
      apply complete_ok; [done|]. by rewrite Hstep.
    + unfold handleSkipTutorial. apply complete_ok; [done|]. by rewrite Hstep.
Qed.

Lemma run_ok onComplete events st :
  reachable_ok st -> reachable_ok (run onComplete events st).
Proof.
  revert st. unfold run.
  induction events as [|e events IH]; intros st Hok; [done|].
  simpl. apply IH. by apply dispatch_ok.
Qed.

(** X14.  Whatever the user does on the screen, the step never goes past
    3, [onComplete] is only called at step 3, and every user record it
    is called with has a first and a last name that are not blank and an
    email that contains [@]: the buttons that are disabled while a step
    is invalid let nothing else through, the skip button included. *)
Theorem onboarding_completes_only_with_valid_data :
  forall (onComplete : bool) (events : list Event),
    currentStep (run onComplete events initial) <= 3 /\
    (completions (run onComplete events initial) <> [] ->
     currentStep (run onComplete events initial) = 3) /\
    Forall (fun u =>
              JSString.trim (firstName u) <> "" /\
              JSString.trim (lastName u) <> "" /\
              "@"%char ∈ JSString.chars (email u))
           (completions (run onComplete events initial)).
Proof.
  intros onComplete events.
  assert (reachable_ok initial) as Hinit.
  { simpl. repeat split; try done; try lia. }
  destruct (run_ok onComplete events initial Hinit) as (H1 & _ & _ & H4 & H5).
  split; [exact H1|]. split; [exact H4|].
  eapply Forall_impl; [exact H5|]. simpl. intros u [[? ?] ?]. done.
Qed.

Lemma onboarding_completes_only_with_valid_data_witness :
  completions (run true [PressContinue; PressSkip] ProfileSamples.atEmailStep)
  = [ProfileSamples.ada] /\
  currentStep (run true [PressContinue; PressSkip] ProfileSamples.atEmailStep) = 3.
Proof.
  split; [reflexivity|].
  apply (onboarding_completes_only_with_valid_data true
           [PressContinue;
            ChangeText FirstName "Ada";
            ChangeText LastName "Lovelace";
            PressContinue;
            ChangeText Email "ada@example.com";
            PressContinue; PressSkip]).
  discriminate.
Defined.

(** X15.  From the first screen, with nothing typed, the wizard cannot be
    finished: pressing the buttons, in any order and any number of
    times, never gets past the name step and never calls [onComplete]. *)
Theorem onboarding_needs_input :
  forall (onComplete : bool) (events : list Event),
    Forall (fun e => match e with ChangeText _ _ => False | _ => True end) events ->
    currentStep (run onComplete events initial) <= 1 /\
    completions (run onComplete events initial) = [] /\
    userData (run onComplete events initial) = userData initial.
Proof.
  intros onComplete events Hpress.
  assert (forall st,
             currentStep st <= 1 -> completions st = [] ->
             userData st = userData initial ->
             currentStep (run onComplete events st) <= 1 /\
             completions (run onComplete events st) = [] /\
             userData (run onComplete events st) = userData initial) as Hgen.
  { unfold run. induction Hpress as [|e events He _ IH]; intros st H1 H2 H3; [done|].
    simpl. apply IH.
    - unfold dispatch, offered.
      destruct st as [[|[|n]] u comps]; simpl in *; [| |lia];
        destruct e as [field text| |]; try done; simpl; try lia.
      subst u. simpl. lia.
    - unfold dispatch, offered.
      destruct st as [[|[|n]] u comps]; simpl in *; [| |lia];
        destruct e as [field text| |]; try done.
      subst u. done.
    - unfold dispatch, offered.
      destruct st as [[|[|n]] u comps]; simpl in *; [| |lia];
        destruct e as [field text| |]; try done.
      subst u. done. }
  apply Hgen; [simpl; lia | done | done].
Qed.

Lemma onboarding_needs_input_witness :
  Forall (fun e => match e with ChangeText _ _ => False | _ => True end)
         [PressContinue; PressContinue; PressSkip; PressContinue] /\
  currentStep (run true [PressContinue; PressContinue; PressSkip; PressContinue]
                 initial) <= 1.
Proof.
  assert (Forall (fun e => match e with ChangeText _ _ => False | _ => True end)
            [PressContinue; PressContinue; PressSkip; PressContinue]) as H.
  { by repeat constructor. }
  split; [exact H|]. by apply onboarding_needs_input.
Defined.

End onboarding_facts.

(** ** Launch, onboarding hand-over and logout *)

Section app_facts.
Import App.


(** X16.  At launch the splash is shown until it reports its end, then an
    empty view until the stored flag has been read, then the main screens
    when the stored flag is exactly the text [true], and the onboarding
    for any other content or none.  The two events may come in either
    order. *)
Theorem launch_shows_main_only_for_true_flag :
  forall asyncStorage : gmap string string,
    render initial = Splash /\
    render (checkOnboardingStatus asyncStorage initial) = Splash /\
    render (handleSplashFinish initial) = LoadingView /\
    handleSplashFinish (checkOnboardingStatus asyncStorage initial)
    = checkOnboardingStatus asyncStorage (handleSplashFinish initial) /\
    (render (handleSplashFinish (checkOnboardingStatus asyncStorage initial)) = MainFlow
     <-> asyncStorage !! "onboardingCompleted" = Some "true") /\
    (render (handleSplashFinish (checkOnboardingStatus asyncStorage initial))
     = OnboardingFlow
     <-> asyncStorage !! "onboardingCompleted" <> Some "true").
Proof.
  intros asyncStorage. unfold checkOnboardingStatus.
  destruct (decide (asyncStorage !! "onboardingCompleted" = Some "true")) as [E|E].
  - rewrite !bool_decide_eq_true_2 by done. simpl. repeat split; try done.
  - rewrite !bool_decide_eq_false_2 by done. simpl. repeat split; try done.
Qed.

(** X17.  [handleOnboardingComplete] touches no key of the store but
    the flag and the user record.  When both writes resolve it stores
    both, sets [isOnboardingCompleted] and greets the user, and every
    later launch from that store shows the main screens.  When the first
    write is rejected the store and [isOnboardingCompleted] stay as they
    were and an error is shown.  When the second write is rejected the
    same holds of [isOnboardingCompleted] and of the user record, but the
    flag is stored: the next launch shows the main screens although no
    user record was saved. *)
Theorem handleOnboardingComplete_outcomes :
  forall (JSON_stringify : JSON.Value -> string) (fault : JSRuntime.WriteFault)
         (userInfo : Onboarding.UserData)
         (asyncStorage : gmap string string) (st : State),
    let asyncStorage' :=
      (handleOnboardingComplete JSON_stringify fault userInfo asyncStorage st).1 in
    let st' :=
      (handleOnboardingComplete JSON_stringify fault userInfo asyncStorage st).2 in
    (forall key, key <> "onboardingCompleted" -> key <> "userData" ->
                 asyncStorage' !! key = asyncStorage !! key) /\
    match fault with
    | JSRuntime.NoFault =>
        isOnboardingCompleted st' = true /\
        asyncStorage' !! "onboardingCompleted" = Some "true" /\
        asyncStorage' !! "userData" = Some (JSON_stringify (userInfo_value userInfo)) /\
        alerts st'
        = alerts st
            ++ [("Welcome to Little Lemon!",
                 "Hello " +:+ Onboarding.firstName userInfo
                   +:+ "! Your account has been created successfully.")] /\
        render (handleSplashFinish (checkOnboardingStatus asyncStorage' initial))
        = MainFlow
    | JSRuntime.FirstWrite =>
        asyncStorage' = asyncStorage /\
        isOnboardingCompleted st' = isOnboardingCompleted st /\
        alerts st'
        = alerts st ++ [("Error", "Failed to save your information. Please try again.")]
    | JSRuntime.SecondWrite =>
        asyncStorage' !! "onboardingCompleted" = Some "true" /\
        asyncStorage' !! "userData" = asyncStorage !! "userData" /\
        isOnboardingCompleted st' = isOnboardingCompleted st /\
        alerts st'
        = alerts st ++ [("Error", "Failed to save your information. Please try again.")] /\
        render (handleSplashFinish (checkOnboardingStatus asyncStorage' initial))
        = MainFlow
    end.
Proof.
  intros JSON_stringify fault userInfo asyncStorage st. cbv zeta.
  unfold handleOnboardingComplete. split.
  - intros key H1 H2. destruct fault; cbn [fst]; by rewrite ?lookup_insert_ne.
  - destruct fault; cbn [fst snd].
    + assert ((<["userData":=JSON_stringify (userInfo_value userInfo)]>
                 (<["onboardingCompleted":="true"]> asyncStorage)
                 : gmap string string)
              !! "onboardingCompleted" = Some "true") as Hflag.
      { rewrite lookup_insert_ne by done. apply lookup_insert_eq. }
      split; [done|]. split; [exact Hflag|]. split; [apply lookup_insert_eq|].
      split; [done|].
      unfold checkOnboardingStatus. by rewrite bool_decide_eq_true_2.
    + done.
    + assert ((<["onboardingCompleted":="true"]> asyncStorage : gmap string string)
              !! "onboardingCompleted" = Some "true") as Hflag.
      { apply lookup_insert_eq. }
      split; [exact Hflag|]. split; [by rewrite lookup_insert_ne|].
      split; [done|]. split; [done|].
      unfold checkOnboardingStatus. by rewrite bool_decide_eq_true_2.
Qed.



End app_facts.

(** ** The profile editor *)

Section profile_facts.
Import ProfileScreen.

Lemma truthy_iff (s : string) : JSString.truthy s = true <-> s <> "".
Proof. by destruct s. Qed.

Lemma present_truthy (text : string) :
  JSString.truthy text = true -> HomeScreen.present (Some text) = Some text.
Proof. unfold HomeScreen.present. by intros ->. Qed.

Lemma text_or_empty_Str (s : string) : text_or_empty (Some (JSON.Str s)) = Some s.
Proof. by destruct s. Qed.

Lemma member_userData_value (p : ProfileData) :
  JSRuntime.member (userData_value p) "firstName" = Some (JSON.Str (firstName p)) /\
  JSRuntime.member (userData_value p) "lastName" = Some (JSON.Str (lastName p)) /\
  JSRuntime.member (userData_value p) "email" = Some (JSON.Str (email p)).
Proof. by vm_compute. Qed.

Lemma as_notifications_value (n : Notifications) :
  as_notifications (notifications_value n) = Some n.
Proof. destruct n. by vm_compute. Qed.

Lemma spread_settings_value (p prev : ProfileData) :
  spread_settings (profileSettings_value p) prev
  = Some {| firstName := firstName prev; lastName := lastName prev;
            email := email prev; phoneNumber := phoneNumber p;
            avatar := avatar p; notifications := notifications p |}.
Proof. destruct p as [f l e ph [a|] [b1 b2 b3 b4]]; by vm_compute. Qed.

Lemma member_userInfo_value (u : Onboarding.UserData) :
  JSRuntime.member (App.userInfo_value u) "firstName"
  = Some (JSON.Str (Onboarding.firstName u)) /\
  JSRuntime.member (App.userInfo_value u) "lastName"
  = Some (JSON.Str (Onboarding.lastName u)) /\
  JSRuntime.member (App.userInfo_value u) "email"
  = Some (JSON.Str (Onboarding.email u)).
Proof. by vm_compute. Qed.

Lemma replaced_length (s : string) :
  JSString.length (JSString.replace_non_digits s) = List.length (JSString.digits s).
Proof.
  unfold JSString.length, JSString.replace_non_digits. by rewrite chars_str.
Qed.

Lemma emailRegex_trim_nonempty (e : string) :
  JSRuntime.test emailRegex e = true -> JSString.trim e <> "".
Proof.
  intros (local & domain & tld & E & _)%emailRegex_parts.
  apply (trim_nonempty_of_visible e "@"%char); [done|].
  rewrite E, elem_of_app, elem_of_cons. right. by left.
Qed.

(** What a save that passes the three checks does when both writes
    resolve. *)
Lemma saveChanges_accepted (JSON_stringify : JSON.Value -> string)
    (asyncStorage : gmap string string) (st : State) :
  JSString.trim (firstName (profileData st)) <> "" ->
  JSRuntime.test emailRegex (email (profileData st)) = true ->
  phoneNumber (profileData st) = ""
  \/ List.length (JSString.digits (phoneNumber (profileData st))) = 10 ->
  saveChanges JSON_stringify JSRuntime.NoFault asyncStorage st
  = (<["profileSettings" := JSON_stringify (profileSettings_value (profileData st))]>
       (<["userData" := JSON_stringify (userData_value (profileData st))]> asyncStorage),
     alert "Success" "Your changes have been saved successfully!"
           (setHasChanges false st)).
Proof.
  intros Hfirst Hemail Hphone. unfold saveChanges.
  rewrite (proj2 (truthy_iff _) Hfirst).
  rewrite (proj2 (truthy_iff _) (emailRegex_trim_nonempty _ Hemail)).
  rewrite Hemail. simpl.
  assert (JSString.truthy (phoneNumber (profileData st))
          && negb (Profile.isValidPhoneNumber (phoneNumber (profileData st))) = false)
    as ->; [|done].
  destruct Hphone as [-> | Hten]; [done|].
  unfold Profile.isValidPhoneNumber. rewrite replaced_length, Hten. simpl.
  apply andb_false_r.
Qed.

(** The three checks of [saveChanges], as one condition. *)
Lemma saveChanges_checks (p : ProfileData) :
  (negb (JSString.truthy (JSString.trim (firstName p)))
   || negb (JSString.truthy (JSString.trim (email p))) = false /\
   negb (JSRuntime.test emailRegex (email p)) = false /\
   JSString.truthy (phoneNumber p)
   && negb (Profile.isValidPhoneNumber (phoneNumber p)) = false)
  <-> (JSString.trim (firstName p) <> "" /\
       JSRuntime.test emailRegex (email p) = true /\
       (phoneNumber p = "" \/ List.length (JSString.digits (phoneNumber p)) = 10)).
Proof.
  rewrite orb_false_iff, !negb_false_iff, andb_false_iff, negb_false_iff.
  unfold Profile.isValidPhoneNumber. rewrite replaced_length, Nat.eqb_eq.
  rewrite !truthy_iff. split.
  - intros ((Hf & _) & Ht & Hp). split; [done|]. split; [done|].
    destruct Hp as [Hp|Hp]; [left | by right].
    by destruct (phoneNumber p).
  - intros (Hf & Ht & Hp). split; [|split; [done|]].
    + split; [done|]. by apply emailRegex_trim_nonempty.
    + destruct Hp as [->|Hp]; [by left | by right].
Qed.

(** X19.  [saveChanges] never changes the form.  It passes its checks
    exactly when the first name is not blank, the email matches the
    pattern and the phone is empty or holds ten digits; the last name is
    not checked.  When a check fails, nothing is written, [hasChanges]
    stays and one error is shown.  When the checks pass and both writes
    resolve, both records are written and [hasChanges] is cleared.  When
    the first write is rejected nothing is written; when the second is
    rejected the user record is written and the profile settings are not;
    in both cases [hasChanges] stays and an error is shown. *)
Theorem saveChanges_outcomes :
  forall (JSON_stringify : JSON.Value -> string) (fault : JSRuntime.WriteFault)
         (asyncStorage : gmap string string) (st : State),
    let p := profileData st in
    let result := saveChanges JSON_stringify fault asyncStorage st in
    profileData result.2 = p /\
    (~ (JSString.trim (firstName p) <> "" /\
        JSRuntime.test emailRegex (email p) = true /\
        (phoneNumber p = "" \/ List.length (JSString.digits (phoneNumber p)) = 10)) ->
     result.1 = asyncStorage /\
     hasChanges result.2 = hasChanges st /\
     exists message,
       alerts result.2 = alerts st ++ [("Error", message)] /\
       message <> "Failed to save changes. Please try again.") /\
    (JSString.trim (firstName p) <> "" /\
     JSRuntime.test emailRegex (email p) = true /\
     (phoneNumber p = "" \/ List.length (JSString.digits (phoneNumber p)) = 10) ->
     match fault with
     | JSRuntime.NoFault =>
         result.1
         = <["profileSettings" := JSON_stringify (profileSettings_value p)]>
             (<["userData" := JSON_stringify (userData_value p)]> asyncStorage) /\
         hasChanges result.2 = false /\
         alerts result.2
         = alerts st ++ [("Success", "Your changes have been saved successfully!")]
     | JSRuntime.FirstWrite =>
         result.1 = asyncStorage /\
         hasChanges result.2 = hasChanges st /\
         alerts result.2
         = alerts st ++ [("Error", "Failed to save changes. Please try again.")]
     | JSRuntime.SecondWrite =>
         result.1
         = <["userData" := JSON_stringify (userData_value p)]> asyncStorage /\
         result.1 !! "profileSettings" = asyncStorage !! "profileSettings" /\
         hasChanges result.2 = hasChanges st /\
         alerts result.2
         = alerts st ++ [("Error", "Failed to save changes. Please try again.")]
     end).
Proof.
  intros JSON_stringify fault asyncStorage st. cbv zeta.
  pose proof (saveChanges_checks (profileData st)) as Hchecks.
  unfold saveChanges.
  destruct (negb (JSString.truthy (JSString.trim (firstName (profileData st))))
            || negb (JSString.truthy (JSString.trim (email (profileData st)))))
    eqn:H1.
  { split; [done|]. split; [|intros Hok; apply Hchecks in Hok as (? & _); done].
    intros _. cbn [fst snd hasChanges alerts alert]. by eauto 10. }
  destruct (negb (JSRuntime.test emailRegex (email (profileData st)))) eqn:H2.
  { split; [done|]. split; [|intros Hok; apply Hchecks in Hok as (_ & ? & _); done].
    intros _. cbn [fst snd hasChanges alerts alert]. by eauto 10. }
  destruct (JSString.truthy (phoneNumber (profileData st))
            && negb (Profile.isValidPhoneNumber (phoneNumber (profileData st))))
    eqn:H3.
  { split; [done|]. split; [|intros Hok; apply Hchecks in Hok as (_ & _ & ?); done].
    intros _. cbn [fst snd hasChanges alerts alert]. by eauto 10. }
  split; [by destruct fault|]. split.
  - intros Hnot. destruct Hnot. by apply Hchecks.
  - intros _. destruct fault; cbn [fst snd]; repeat split; try done.
    by rewrite lookup_insert_ne.
Qed.

Lemma saveChanges_outcomes_witness :
  (JSString.trim (firstName ProfileSamples.adaProfile) <> "" /\
   JSRuntime.test emailRegex (email ProfileSamples.adaProfile) = true /\
   (phoneNumber ProfileSamples.adaProfile = ""
    \/ List.length (JSString.digits (phoneNumber ProfileSamples.adaProfile)) = 10)) /\
  (saveChanges ProfileSamples.stringify JSRuntime.SecondWrite ∅
     ProfileSamples.adaEdited).1
  = <["userData" := ProfileSamples.stringify
                      (userData_value ProfileSamples.adaProfile)]> ∅.
Proof.
  assert (JSString.trim (firstName ProfileSamples.adaProfile) <> "" /\
          JSRuntime.test emailRegex (email ProfileSamples.adaProfile) = true /\
          (phoneNumber ProfileSamples.adaProfile = ""
           \/ List.length (JSString.digits (phoneNumber ProfileSamples.adaProfile)) = 10))
    as Hok.
  { split; [by vm_compute|]. split; [by vm_compute|]. right. by vm_compute. }
  split; [exact Hok|].
  destruct (saveChanges_outcomes ProfileSamples.stringify JSRuntime.SecondWrite ∅
              ProfileSamples.adaEdited) as (_ & _ & Hwrites).
  exact (proj1 (Hwrites Hok)).
Defined.

(** Loading from a store that holds the two records of [p]. *)
Lemma loadProfileData_saved (JSON_parse : string -> option JSON.Value)
    (asyncStorage : gmap string string) (userText settingsText : string)
    (p : ProfileData) (prev : State) :
  asyncStorage !! "userData" = Some userText ->
  asyncStorage !! "profileSettings" = Some settingsText ->
  userText <> "" -> settingsText <> "" ->
  JSON_parse userText = Some (userData_value p) ->
  JSON_parse settingsText = Some (profileSettings_value p) ->
  loadProfileData JSON_parse asyncStorage prev = Some (setProfileData (fun _ => p) prev).
Proof.
  intros Hu Hs Hune Hsne Hpu Hps. unfold loadProfileData.
  rewrite Hu, Hs.
  rewrite !present_truthy by by apply truthy_iff.
  rewrite Hpu, Hps. cbn [userData_value].
  change (JSON.Object [("firstName", JSON.Str (firstName p));
                       ("lastName", JSON.Str (lastName p));
                       ("email", JSON.Str (email p))]) with (userData_value p).
  destruct (member_userData_value p) as (-> & -> & ->).
  rewrite !text_or_empty_Str. cbn [setProfileData profileData].
  rewrite spread_settings_value. by destruct p.
Qed.

(** X20.  What [saveChanges] stores, [loadProfileData] reads back: after
    a save that passed the checks, loading into any form state, and so
    confirming a discard, gives the saved profile again.  This needs
    [JSON.parse] to invert [JSON.stringify] on the two records. *)
Theorem saveChanges_then_loadProfileData :
  forall (JSON_stringify : JSON.Value -> string)
         (JSON_parse : string -> option JSON.Value)
         (asyncStorage : gmap string string) (st prev : State),
    let p := profileData st in
    JSString.trim (firstName p) <> "" ->
    JSRuntime.test emailRegex (email p) = true ->
    phoneNumber p = "" \/ List.length (JSString.digits (phoneNumber p)) = 10 ->
    JSON_parse (JSON_stringify (userData_value p)) = Some (userData_value p) ->
    JSON_parse (JSON_stringify (profileSettings_value p))
    = Some (profileSettings_value p) ->
    JSON_stringify (userData_value p) <> "" ->
    JSON_stringify (profileSettings_value p) <> "" ->
    loadProfileData JSON_parse (saveChanges JSON_stringify JSRuntime.NoFault asyncStorage st).1 prev
    = Some {| profileData := p; hasChanges := hasChanges prev; alerts := alerts prev |} /\
    discardChanges_confirmed JSON_parse
      (saveChanges JSON_stringify JSRuntime.NoFault asyncStorage st).1 prev
    = Some {| profileData := p; hasChanges := false; alerts := alerts prev |}.
Proof.
  intros JSON_stringify JSON_parse asyncStorage st prev p
    Hfirst Hemail Hphone Hpu Hps Hune Hsne.
  rewrite (saveChanges_accepted _ _ _ Hfirst Hemail Hphone). cbn [fst].
  assert (loadProfileData JSON_parse
            (<["profileSettings" := JSON_stringify (profileSettings_value p)]>
               (<["userData" := JSON_stringify (userData_value p)]> asyncStorage))
            prev
          = Some (setProfileData (fun _ => p) prev)) as Hload.
  { apply (loadProfileData_saved JSON_parse _
             (JSON_stringify (userData_value p))
             (JSON_stringify (profileSettings_value p)) p prev); try done.
    - rewrite lookup_insert_ne by done. apply lookup_insert_eq.
    - apply lookup_insert_eq. }
  split; [exact Hload|].
  unfold discardChanges_confirmed. fold p. by rewrite Hload.
Qed.

Lemma saveChanges_then_loadProfileData_witness :
  loadProfileData ProfileSamples.parse
    (saveChanges ProfileSamples.stringify JSRuntime.NoFault ∅ ProfileSamples.adaEdited).1 initial
  = Some {| profileData := ProfileSamples.adaProfile;
            hasChanges := false; alerts := [] |}.
Proof.
  apply (saveChanges_then_loadProfileData ProfileSamples.stringify ProfileSamples.parse
           ∅ ProfileSamples.adaEdited initial).
  - by vm_compute.
  - by vm_compute.
  - right. by vm_compute.
  - by vm_compute.
  - by vm_compute.
  - by vm_compute.
  - by vm_compute.
Defined.

(** X21.  A discard only reverts what the store holds.  While no profile
    settings have been saved, as is the case after the onboarding, a
    confirmed discard leaves the edited phone number, avatar and
    notification flags in the form, and still clears [hasChanges]. *)
Theorem discardChanges_keeps_unsaved_settings :
  forall (JSON_parse : string -> option JSON.Value)
         (asyncStorage : gmap string string) (st st' : State),
    asyncStorage !! "profileSettings" = None ->
    discardChanges_confirmed JSON_parse asyncStorage st = Some st' ->
    phoneNumber (profileData st') = phoneNumber (profileData st) /\
    avatar (profileData st') = avatar (profileData st) /\
    notifications (profileData st') = notifications (profileData st) /\
    hasChanges st' = false.
Proof.
  intros JSON_parse asyncStorage st st' Hnone.
  unfold discardChanges_confirmed, loadProfileData. rewrite Hnone. simpl.
  destruct (HomeScreen.present (asyncStorage !! "userData")) as [text|];
    [|by intros [= <-]].
  destruct (JSON_parse text) as [parsed|]; [|by intros [= <-]].
  destruct (text_or_empty (JSRuntime.member parsed "firstName")) as [f|] eqn:Hf;
    destruct (text_or_empty (JSRuntime.member parsed "lastName")) as [l|] eqn:Hl;
    destruct (text_or_empty (JSRuntime.member parsed "email")) as [e|] eqn:He;
    destruct parsed; simpl; rewrite ?Hf, ?Hl, ?He; try done;
    by intros [= <-].
Qed.

Lemma discardChanges_keeps_unsaved_settings_witness :
  ({[ "userData" := ProfileSamples.userDataText ]} : gmap string string)
    !! "profileSettings" = None /\
  exists st',
    discardChanges_confirmed ProfileSamples.parse
      {[ "userData" := ProfileSamples.userDataText ]}
      (handleInputChange PhoneNumber "5551234567" initial) = Some st' /\
    phoneNumber (profileData st') = "(555) 123-4567" /\
    firstName (profileData st') = "Ada".
Proof.
  split; [reflexivity|].
  eexists. split; [by vm_compute|].
  split; [|reflexivity].
  refine (proj1 (discardChanges_keeps_unsaved_settings ProfileSamples.parse
                   {[ "userData" := ProfileSamples.userDataText ]}
                   (handleInputChange PhoneNumber "5551234567" initial) _ _ _)).
  - reflexivity.
  - by vm_compute.
Defined.

(** X22.  A press on a notification check box inverts that flag and no
    other, and changes nothing else in the profile.  A second press
    restores the profile, but [hasChanges] stays set: the save and
    discard buttons remain enabled though nothing differs. *)
Theorem handleNotificationChange_toggles_one_flag :
  forall (type : NotificationType) (st : State),
    let st1 := handleNotificationChange type st in
    checked type (notifications (profileData st1))
    = negb (checked type (notifications (profileData st))) /\
    (forall other, other <> type ->
                   checked other (notifications (profileData st1))
                   = checked other (notifications (profileData st))) /\
    set_notifications (notifications (profileData st)) (profileData st1)
    = profileData st /\
    hasChanges st1 = true /\
    profileData (handleNotificationChange type st1) = profileData st /\
    hasChanges (handleNotificationChange type st1) = true.
Proof.
  intros type [[f l e ph a [b1 b2 b3 b4]] changed als]. cbv zeta.
  split; [by destruct type|]. split.
  { intros other Hother. by destruct type, other. }
  split; [by destruct type|]. split; [done|].
  split; [|done]. destruct type; simpl; by rewrite negb_involutive.
Qed.

(** X23.  After a save that passed the checks, the home screen builds its
    user view from the two stored records: it shows the saved names,
    email, phone number, avatar and flags.  This needs [JSON.parse] to
    invert [JSON.stringify] on the two records. *)
Theorem saveChanges_then_home_view :
  forall (JSON_stringify : JSON.Value -> string)
         (JSON_parse : string -> option JSON.Value)
         (asyncStorage : gmap string string) (st : State) (home : HomeScreen.State),
    let p := profileData st in
    JSString.trim (firstName p) <> "" ->
    JSRuntime.test emailRegex (email p) = true ->
    phoneNumber p = "" \/ List.length (JSString.digits (phoneNumber p)) = 10 ->
    JSON_parse (JSON_stringify (userData_value p)) = Some (userData_value p) ->
    JSON_parse (JSON_stringify (profileSettings_value p))
    = Some (profileSettings_value p) ->
    JSON_stringify (userData_value p) <> "" ->
    JSON_stringify (profileSettings_value p) <> "" ->
    exists view : gmap string JSON.Value,
      HomeScreen.userData
        (HomeScreen.loadUserData JSON_parse
           (saveChanges JSON_stringify JSRuntime.NoFault asyncStorage st).1 home) = Some view /\
      view !! "firstName" = Some (JSON.Str (firstName p)) /\
      view !! "lastName" = Some (JSON.Str (lastName p)) /\
      view !! "email" = Some (JSON.Str (email p)) /\
      view !! "phoneNumber" = Some (JSON.Str (phoneNumber p)) /\
      view !! "avatar" = Some (avatar_value (avatar p)) /\
      view !! "notifications" = Some (notifications_value (notifications p)).
Proof.
  intros JSON_stringify JSON_parse asyncStorage st home p
    Hfirst Hemail Hphone Hpu Hps Hune Hsne.
  rewrite (saveChanges_accepted _ _ _ Hfirst Hemail Hphone). cbn [fst]. fold p.
  exists (JSON.spread (profileSettings_value p) ∪ JSON.spread (userData_value p)).
  split.
  - unfold HomeScreen.loadUserData.
    rewrite lookup_insert_eq, lookup_insert_ne by done. rewrite lookup_insert_eq.
    rewrite !present_truthy by by apply truthy_iff.
    by rewrite Hpu, Hps.
  - clearbody p. clear. destruct p as [f l e ph a n]. by vm_compute.
Qed.

Lemma saveChanges_then_home_view_witness :
  exists view : gmap string JSON.Value,
    HomeScreen.userData
      (HomeScreen.loadUserData ProfileSamples.parse
         (saveChanges ProfileSamples.stringify JSRuntime.NoFault ∅ ProfileSamples.adaEdited).1
         HomeScreen.initial) = Some view /\
    view !! "phoneNumber" = Some (JSON.Str "(555) 123-4567").
Proof.
  destruct (saveChanges_then_home_view ProfileSamples.stringify ProfileSamples.parse
              ∅ ProfileSamples.adaEdited HomeScreen.initial)
    as (view & Hview & _ & _ & _ & Hphone & _).
  - by vm_compute.
  - by vm_compute.
  - right. by vm_compute.
  - by vm_compute.
  - by vm_compute.
  - by vm_compute.
  - by vm_compute.
  - exists view. split; [exact Hview | exact Hphone].
Defined.

(** X24.  The record the onboarding stores reaches both screens: on a
    store without profile settings, the home screen's user view has the
    three entered texts and no phone number, and the profile editor loads
    the three texts and keeps the rest of its form.  This needs
    [JSON.parse] to invert [JSON.stringify] on the record. *)
Theorem onboarding_record_reaches_home_and_profile :
  forall (JSON_stringify : JSON.Value -> string)
         (JSON_parse : string -> option JSON.Value)
         (userInfo : Onboarding.UserData)
         (asyncStorage : gmap string string) (app : App.State)
         (home : HomeScreen.State) (editor : State),
    asyncStorage !! "profileSettings" = None ->
    JSON_parse (JSON_stringify (App.userInfo_value userInfo))
    = Some (App.userInfo_value userInfo) ->
    JSON_stringify (App.userInfo_value userInfo) <> "" ->
    let asyncStorage' :=
      (App.handleOnboardingComplete JSON_stringify JSRuntime.NoFault userInfo
         asyncStorage app).1 in
    (exists view : gmap string JSON.Value,
        HomeScreen.userData (HomeScreen.loadUserData JSON_parse asyncStorage' home)
        = Some view /\
        view !! "firstName" = Some (JSON.Str (Onboarding.firstName userInfo)) /\
        view !! "lastName" = Some (JSON.Str (Onboarding.lastName userInfo)) /\
        view !! "email" = Some (JSON.Str (Onboarding.email userInfo)) /\
        view !! "phoneNumber" = None /\
        view !! "avatar" = None) /\
    loadProfileData JSON_parse asyncStorage' editor
    = Some {| profileData :=
                {| firstName := Onboarding.firstName userInfo;
                   lastName := Onboarding.lastName userInfo;
                   email := Onboarding.email userInfo;
                   phoneNumber := phoneNumber (profileData editor);
                   avatar := avatar (profileData editor);
                   notifications := notifications (profileData editor) |};
              hasChanges := hasChanges editor;
              alerts := alerts editor |}.
Proof.
  intros JSON_stringify JSON_parse userInfo asyncStorage app home editor
    Hnone Hparse Hne. cbv zeta.
  unfold App.handleOnboardingComplete. cbn [fst].
  set (text := JSON_stringify (App.userInfo_value userInfo)) in *.
  assert ((<["userData":=text]> (<["onboardingCompleted":="true"]> asyncStorage)
             : gmap string string) !! "userData" = Some text) as Hu.
  { apply lookup_insert_eq. }
  assert ((<["userData":=text]> (<["onboardingCompleted":="true"]> asyncStorage)
             : gmap string string) !! "profileSettings" = None) as Hs.
  { by rewrite !lookup_insert_ne. }
  split.
  - exists (JSON.spread (App.userInfo_value userInfo)). split.
    + unfold HomeScreen.loadUserData. rewrite Hu, Hs.
      rewrite present_truthy by by apply truthy_iff.
      by rewrite Hparse.
    + destruct userInfo as [f l e]. by vm_compute.
  - unfold loadProfileData. rewrite Hu, Hs.
    rewrite present_truthy by by apply truthy_iff.
    rewrite Hparse. cbn [App.userInfo_value].
    change (JSON.Object [("firstName", JSON.Str (Onboarding.firstName userInfo));
                         ("lastName", JSON.Str (Onboarding.lastName userInfo));
                         ("email", JSON.Str (Onboarding.email userInfo))])
      with (App.userInfo_value userInfo).
    destruct (member_userInfo_value userInfo) as (-> & -> & ->).
    by rewrite !text_or_empty_Str.
Qed.

Lemma onboarding_record_reaches_home_and_profile_witness :
  (∅ : gmap string string) !! "profileSettings" = None /\
  loadProfileData ProfileSamples.parse
    (App.handleOnboardingComplete ProfileSamples.stringify JSRuntime.NoFault
       ProfileSamples.ada
       ∅ App.initial).1 initial
  = Some {| profileData :=
              {| firstName := "Ada"; lastName := "Lovelace";
                 email := "ada@example.com";
                 phoneNumber := phoneNumber (profileData initial);
                 avatar := avatar (profileData initial);
                 notifications := notifications (profileData initial) |};
            hasChanges := false; alerts := [] |}.
Proof.
  split; [reflexivity|].
  apply (onboarding_record_reaches_home_and_profile
           ProfileSamples.stringify ProfileSamples.parse ProfileSamples.ada
           ∅ App.initial HomeScreen.initial initial).
  - reflexivity.
  - by vm_compute.
  - by vm_compute.
Defined.

(** X25.  A phone number typed into the form lets the save through
    exactly when the typed text holds no digit at all, and the field is
    then empty, or at least ten digits, of which the first ten are kept;
    the first name and the email being acceptable. *)
Theorem typed_phone_accepted_iff_no_or_ten_digits :
  forall (JSON_stringify : JSON.Value -> string)
         (asyncStorage : gmap string string) (st : State) (typed : string),
    JSString.trim (firstName (profileData st)) <> "" ->
    JSRuntime.test emailRegex (email (profileData st)) = true ->
    let st1 := handleInputChange PhoneNumber typed st in
    hasChanges st1 = true /\
    phoneNumber (profileData st1) = Profile.formatPhoneNumber typed /\
    (hasChanges (saveChanges JSON_stringify JSRuntime.NoFault asyncStorage st1).2 = false
     <-> JSString.digits typed = [] \/ 10 <= List.length (JSString.digits typed)).
Proof.
  intros JSON_stringify asyncStorage st typed Hfirst Hemail. cbv zeta.
  split; [done|]. split; [done|].
  unfold saveChanges. cbn [handleInputChange setHasChanges setProfileData set_field
                           profileData firstName email phoneNumber].
  rewrite (proj2 (truthy_iff _) Hfirst).
  rewrite (proj2 (truthy_iff _) (emailRegex_trim_nonempty _ Hemail)).
  rewrite Hemail. cbn [negb orb].
  unfold Profile.isValidPhoneNumber. rewrite replaced_length.
  rewrite digits_formatPhoneNumber, length_take.
  destruct (JSString.truthy (Profile.formatPhoneNumber typed)) eqn:Htruthy; cbn [andb].
  - assert (JSString.digits typed <> []) as Hdigits.
    { rewrite <- formatPhoneNumber_empty_iff. by apply truthy_iff. }
    destruct (10 `min` length (JSString.digits typed) =? 10) eqn:Hten; simpl.
    + apply Nat.eqb_eq in Hten. split; [intros _; right; lia | done].
    + apply Nat.eqb_neq in Hten. split; [done|]. intros [?|?]; [done | lia].
  - simpl. split; [|done]. intros _. left.
    apply formatPhoneNumber_empty_iff.
    by destruct (Profile.formatPhoneNumber typed).
Qed.

Lemma typed_phone_accepted_iff_no_or_ten_digits_witness :
  JSString.trim (firstName ProfileSamples.adaProfile) <> "" /\
  JSRuntime.test emailRegex (email ProfileSamples.adaProfile) = true /\
  hasChanges (saveChanges ProfileSamples.stringify JSRuntime.NoFault ∅
                (handleInputChange PhoneNumber "555-123-4567 ext 9"
                   ProfileSamples.adaEdited)).2 = false.
Proof.
  assert (JSString.trim (firstName ProfileSamples.adaProfile) <> "") as H1
    by by vm_compute.
  assert (JSRuntime.test emailRegex (email ProfileSamples.adaProfile) = true) as H2
    by by vm_compute.
  split; [exact H1|]. split; [exact H2|].
  apply (typed_phone_accepted_iff_no_or_ten_digits ProfileSamples.stringify ∅
           ProfileSamples.adaEdited "555-123-4567 ext 9" H1 H2).
  right. vm_compute. lia.
Defined.

(** X26.  The two screens treat a profile settings record that does not
    parse differently.  The profile editor has by then taken the names
    and the email from the user record and keeps them; the home screen
    sets its user view only after both records are parsed and so sets
    nothing, leaving the view as it was. *)
Theorem malformed_profileSettings_home_and_profile :
  forall (JSON_parse : string -> option JSON.Value)
         (asyncStorage : gmap string string) (userText settingsText : string)
         (p : ProfileData) (home : HomeScreen.State) (editor : State),
    asyncStorage !! "userData" = Some userText ->
    asyncStorage !! "profileSettings" = Some settingsText ->
    userText <> "" -> settingsText <> "" ->
    JSON_parse userText = Some (userData_value p) ->
    JSON_parse settingsText = None ->
    HomeScreen.loadUserData JSON_parse asyncStorage home = home /\
    loadProfileData JSON_parse asyncStorage editor
    = Some {| profileData :=
                {| firstName := firstName p; lastName := lastName p;
                   email := email p;
                   phoneNumber := phoneNumber (profileData editor);
                   avatar := avatar (profileData editor);
                   notifications := notifications (profileData editor) |};
              hasChanges := hasChanges editor;
              alerts := alerts editor |}.
Proof.
  intros JSON_parse asyncStorage userText settingsText p home editor
    Hu Hs Hune Hsne Hpu Hps.
  split.
  - unfold HomeScreen.loadUserData. rewrite Hu, Hs.
    rewrite !present_truthy by by apply truthy_iff.
    by rewrite Hpu, Hps.
  - unfold loadProfileData. rewrite Hu, Hs.
    rewrite !present_truthy by by apply truthy_iff.
    rewrite Hpu, Hps. cbn [userData_value].
    change (JSON.Object [("firstName", JSON.Str (firstName p));
                         ("lastName", JSON.Str (lastName p));
                         ("email", JSON.Str (email p))]) with (userData_value p).
    destruct (member_userData_value p) as (-> & -> & ->).
    by rewrite !text_or_empty_Str.
Qed.

Lemma malformed_profileSettings_home_and_profile_witness :
  HomeScreen.loadUserData ProfileSamples.parse
    {[ "userData" := ProfileSamples.userDataText; "profileSettings" := "{" ]}
    HomeScreen.initial
  = HomeScreen.initial.
Proof.
  apply (malformed_profileSettings_home_and_profile ProfileSamples.parse
           {[ "userData" := ProfileSamples.userDataText; "profileSettings" := "{" ]}
           ProfileSamples.userDataText "{" ProfileSamples.adaProfile
           HomeScreen.initial initial).
  - by vm_compute.
  - by vm_compute.
  - by vm_compute.
  - done.
  - by vm_compute.
  - by vm_compute.
Defined.

End profile_facts.

(** ** The visible items *)

Section visible_facts.
Import SQLite DatabaseOperations HomeScreen.
#[local] Existing Instance name_le_total.
#[local] Existing Instance name_le_transitive.

(** X27.  [handleFilter] does nothing before the database handle is set.
    Once it is set, the visible items are rows of the table, none more
    often than the table holds it, in ascending order of name; the full
    list, the selection and the search text are not touched. *)
Theorem handleFilter_shows_rows_of_the_table :
  forall (database : Database) (st : State),
    (db st = false -> handleFilter database st = st) /\
    (db st = true ->
     filteredMenuItems (handleFilter database st) ⊆+ getAllMenuItems database /\
     StronglySorted name_le (filteredMenuItems (handleFilter database st))) /\
    menuItems (handleFilter database st) = menuItems st /\
    selectedCategories (handleFilter database st) = selectedCategories st /\
    debouncedSearchText (handleFilter database st) = debouncedSearchText st.
Proof.
  intros database st. unfold handleFilter.
  destruct (db st); simpl; repeat split; try done.
  - unfold filterBySearchAndCategories, getAllMenuItems.
    rewrite <- (app_nil_r (_ ++ _)). apply select_menu_app.
  - apply order_by_name_sorted.
Qed.

Lemma handleFilter_shows_rows_of_the_table_witness :
  db (setDb initial) = true /\
  filteredMenuItems (handleFilter Samples.threeRows (setDb initial))
    ⊆+ getAllMenuItems Samples.threeRows.
Proof.
  split; [reflexivity|].
  apply (handleFilter_shows_rows_of_the_table Samples.threeRows (setDb initial)).
  reflexivity.
Defined.

End visible_facts.
